(** * python-nftables-tutorial: the rule search-and-delete workflow

    A shallow embedding of [nft-delete-rule.py] (the functions
    [rule_has_counter], [search_rules_with_counter] and the command
    construction of [main]) and of [nft-read-counters-and-quotas.py]
    ([_find_objects] and [nft_cmd]), over the values that [json.loads]
    produces, with Python's exceptions as an error result.  The search
    is embedded a second time over a store of mutable objects (module
    [Store]), to state what it leaves untouched; the two embeddings are
    related by [store_search_refines]. *)

From Stdlib Require Import ZArith String Ascii List Bool Lia.
From Stdlib Require Import PrimFloat DecimalString.
From stdpp Require Import base option list.

Import ListNotations.
Local Open Scope string_scope.
Local Open Scope Z_scope.
Local Open Scope list_scope.

(** ** Decoded JSON documents

    What [json.loads] returns: [None], [bool], [int], [float], [str],
    [list] and [dict].  A [dict] is kept as the list of its items in
    insertion order; a lookup takes the first item with the key (the keys
    of a decoded dict are distinct).  A [str] is kept as its UTF-8
    text. *)

#[warnings="-register-all"]
Inductive json : Type :=
| JNull
| JBool (b : bool)
| JInt (z : Z)
| JFloat (f : float)
| JString (s : string)
| JArray (items : list json)
| JObject (fields : list (string * json)).

(** ** Exceptions and the error result *)

Inductive exn : Type :=
| KeyError (key : string)
| TypeError
| AttributeError
| JSONDecodeError.

Inductive result (A : Type) : Type :=
| Ok (a : A)
| Raise (e : exn).
Arguments Ok {A} a.
Arguments Raise {A} e.

#[global] Instance result_ret : MRet result := fun A a => Ok a.

#[global] Instance result_bind : MBind result := fun A B k m =>
  match m with
  | Ok a => k a
  | Raise e => Raise e
  end.

(** ** The Python operations the scripts use *)

(** Lookup of a key among the items of a dict. *)
Fixpoint assoc (k : string) (fields : list (string * json)) : option json :=
  match fields with
  | [] => None
  | (k', v) :: rest => if String.eqb k k' then Some v else assoc k rest
  end.

(** [o[k]] for a string [k]: defined on a dict that has the key. *)
Definition py_getitem (o : json) (k : string) : result json :=
  match o with
  | JObject fields =>
      match assoc k fields with
      | Some v => Ok v
      | None => Raise (KeyError k)
      end
  | _ => Raise TypeError
  end.

(** [o.get(k)]: a method of dict only; [None] when the key is absent. *)
Definition py_get (o : json) (k : string) : result json :=
  match o with
  | JObject fields =>
      match assoc k fields with
      | Some v => Ok v
      | None => Ok JNull
      end
  | _ => Raise AttributeError
  end.

(** [x is None]. *)
Definition is_none (x : json) : bool :=
  match x with
  | JNull => true
  | _ => false
  end.

(** [bool(x)], as used by [not x]. *)
Definition truthy (x : json) : bool :=
  match x with
  | JNull => false
  | JBool b => b
  | JInt z => negb (z =? 0)
  | JFloat f => negb (PrimFloat.eqb f PrimFloat.zero)
  | JString s => negb (String.eqb s "")
  | JArray items => match items with [] => false | _ => true end
  | JObject fields => match fields with [] => false | _ => true end
  end.

(** A [str] is held as its UTF-8 text.  A byte [10xxxxxx] continues the
    character that a byte before it began. *)
Definition is_continuation (c : ascii) : bool :=
  match c with
  | Ascii _ _ _ _ _ _ b6 b7 => b7 && negb b6
  end.

(** The continuation bytes at the head of a text, and the characters
    after them. *)
Fixpoint split_chars (s : string) : string * list string :=
  match s with
  | EmptyString => (EmptyString, [])
  | String c s' =>
      let '(continuation, rest) := split_chars s' in
      if is_continuation c then (String c continuation, rest)
      else (EmptyString, String c continuation :: rest)
  end.

(** The characters (code points) of a text, each with all its bytes. *)
Definition code_points (s : string) : list string :=
  let '(continuation, rest) := split_chars s in
  match continuation with
  | EmptyString => rest
  | _ => continuation :: rest
  end.

(** The one-character strings of a string, which iterating a [str] yields. *)
Definition chars (s : string) : list json := map JString (code_points s).

(** [for x in o]: the items of a list, the keys of a dict, the characters
    of a string; anything else is not iterable. *)
Definition py_iter (o : json) : result (list json) :=
  match o with
  | JArray items => Ok items
  | JObject fields => Ok (map (fun kv => JString (fst kv)) fields)
  | JString s => Ok (chars s)
  | _ => Raise TypeError
  end.

(** [x == k] for a string [k]. *)
Definition eq_str (k : string) (x : json) : bool :=
  match x with
  | JString s => String.eqb s k
  | _ => false
  end.

(** [k in o] for a string [k]: key of a dict, element of a list, substring
    of a string. *)
Definition py_contains (o : json) (k : string) : result bool :=
  match o with
  | JObject fields => Ok (bool_decide (is_Some (assoc k fields)))
  | JArray items => Ok (existsb (eq_str k) items)
  | JString s => Ok (bool_decide (is_Some (String.index 0 k s)))
  | _ => Raise TypeError
  end.

(** [x > 1]: numbers compare with the int 1 (a bool is an int); anything
    else against an int is a [TypeError]. *)
Definition py_gt_1 (x : json) : result bool :=
  match x with
  | JInt z => Ok (1 <? z)
  | JBool b => Ok (1 <? (if b then 1 else 0))
  | JFloat f => Ok (PrimFloat.ltb PrimFloat.one f)
  | _ => Raise TypeError
  end.

(** ** nft-delete-rule.py *)

(** The body of the loop of [rule_has_counter]: the first expression whose
    [get("counter")] is not [None] returns [True]; the end of the
    sequence returns [False]. *)
Fixpoint rule_has_counter_loop (exprs : list json) : result bool :=
  match exprs with
  | [] => Ok false
  | expr :: rest =>
      c ← py_get expr "counter";
      if negb (is_none c) then Ok true else rule_has_counter_loop rest
  end.

Definition rule_has_counter (rule : json) : result bool :=
  e ← py_getitem rule "expr";
  exprs ← py_iter e;
  rule_has_counter_loop exprs.

(** [dict(family=f, table=t, chain=c, handle=h)]. *)
Definition selector_dict (f t c h : json) : json :=
  JObject [("family", f); ("table", t); ("chain", c); ("handle", h)].

(** The loop of [search_rules_with_counter]; [ret] is the list built so
    far, to which a selector is appended. *)
Fixpoint search_loop (objects : list json) (ret : list json)
  : result (list json) :=
  match objects with
  | [] => Ok ret
  | object :: rest =>
      rule ← py_get object "rule";
      if negb (truthy rule) then search_loop rest ret
      else
        has ← rule_has_counter rule;
        if negb has then search_loop rest ret
        else
          f ← py_getitem rule "family";
          t ← py_getitem rule "table";
          c ← py_getitem rule "chain";
          h ← py_getitem rule "handle";
          search_loop rest (ret ++ [selector_dict f t c h])
  end.

Definition search_rules_with_counter (data_structure : json)
  : result (list json) :=
  n ← py_getitem data_structure "nftables";
  objects ← py_iter n;
  search_loop objects [].

(** [dict(metainfo=dict(json_schema_version=1))]. *)
Definition metainfo_entry : json :=
  JObject [("metainfo", JObject [("json_schema_version", JInt 1)])].

(** STEP 3 of [main]: the command built from the selectors found, one
    [dict(delete=rule_info)] appended per selector after the metainfo
    entry. *)
Definition delete_entry (rule_info : json) : json :=
  JObject [("delete", rule_info)].

Fixpoint append_deletes (entries : list json) (infos : list json) : list json :=
  match infos with
  | [] => entries
  | rule_info :: rest => append_deletes (entries ++ [delete_entry rule_info]) rest
  end.

Definition build_delete_command (info_about_rules_to_delete : list json) : json :=
  JObject [("nftables",
            JArray (append_deletes ([] ++ [metainfo_entry])
                                   info_about_rules_to_delete))].

(** The search followed by the construction of the command, as [main]
    chains them. *)
Definition pipeline (kernel_ruleset : json) : result json :=
  infos ← search_rules_with_counter kernel_ruleset;
  mret (build_delete_command infos).

(** ** nft-read-counters-and-quotas.py *)

(** The comprehension [[o[type] for o in ruleset if type in o]]. *)
Fixpoint find_objects_loop (os : list json) (type : string) : result (list json) :=
  match os with
  | [] => Ok []
  | o :: rest =>
      here ← py_contains o type;
      if (here : bool) then
        v ← py_getitem o type;
        vs ← find_objects_loop rest type;
        mret (v :: vs)
      else find_objects_loop rest type
  end.

Definition _find_objects (ruleset : json) (type : string) : result (list json) :=
  os ← py_iter ruleset;
  find_objects_loop os type.

(** How a call ends: it returns, the process exits with a status, or an
    exception propagates. *)
Inductive outcome (A : Type) : Type :=
| Returned (a : A)
| Exited (status : Z)
| Raised (e : exn).
Arguments Returned {A} a.
Arguments Exited {A} status.
Arguments Raised {A} e.

Definition schema_warning : string :=
  "WARNING: we might not understand the JSON produced by libnftables".

(** The loop of [nft_cmd] over the metainfo payloads; [printed] is what
    has been printed so far. *)
Fixpoint check_schema_versions (metainfos : list json) (printed : list string)
  : list string * result unit :=
  match metainfos with
  | [] => (printed, Ok tt)
  | metainfo :: rest =>
      match (v ← py_getitem metainfo "json_schema_version"; py_gt_1 v) with
      | Ok true => check_schema_versions rest (printed ++ [schema_warning])
      | Ok false => check_schema_versions rest printed
      | Raise e => (printed, Raise e)
      end
  end.

Section NftCmd.
(** The library is outside the repository: [json.loads] is a parameter,
    and [nft_cmd] is given the triple that [nftlib.cmd(cmd)] answered. *)
Variable json_loads : string -> result json.

Definition nft_cmd (answer : Z * string * string) (cmd : string)
  : list string * outcome json :=
  let '(rc, output, error) := answer in
  if negb (rc =? 0) then
    ([("ERROR: running cmd " ++ cmd)%string; error], Exited 1)
  else if (String.length output =? 0)%nat then
    (["ERROR: no output from libnftables"], Exited 0)
  else
    match (d ← json_loads output; py_getitem d "nftables") with
    | Raise e => ([], Raised e)
    | Ok ruleset =>
        match _find_objects ruleset "metainfo" with
        | Raise e => ([], Raised e)
        | Ok metainfos =>
            match check_schema_versions metainfos [] with
            | (printed, Raise e) => (printed, Raised e)
            | (printed, Ok _) => (printed, Returned ruleset)
            end
        end
    end.
End NftCmd.

(** ** The same search over a store of mutable objects

    Python's lists and dicts are objects with an identity: [ret.append]
    changes the list [ret] in place, and a value put in a dict is shared,
    not copied.  To state what the search leaves untouched, the module
    below runs it over a store: immutable values ([None], numbers,
    strings) are values, a list or a dict is a reference to an object of
    the store. *)

Module Store.

Definition loc := nat.

Inductive value : Type :=
| VNone
| VBool (b : bool)
| VInt (z : Z)
| VFloat (f : float)
| VStr (s : string)
| VRef (l : loc).
Arguments VRef l%_nat.

Inductive object : Type :=
| ODict (fields : list (string * value))
| OList (items : list value).

(** The store: the object at location [l] is the [l]-th element; a new
    object goes at the end. *)
Abbreviation store := (list object).

(** A computation reads and writes the store and returns or raises. *)
Definition M (A : Type) : Type := store -> result A * store.

#[global] Instance M_ret : MRet M := fun A a h => (Ok a, h).

#[global] Instance M_bind : MBind M := fun A B k m h =>
  match m h with
  | (Ok a, h') => k a h'
  | (Raise e, h') => (Raise e, h')
  end.

Definition raise {A : Type} (e : exn) : M A := fun h => (Raise e, h).

Definition alloc (o : object) : M loc := fun h => (Ok (length h), h ++ [o]).

(** No Python state holds a reference to a missing object; the model
    raises [TypeError] on one. *)
Definition read (l : loc) : M object := fun h =>
  match h !! l with
  | Some o => (Ok o, h)
  | None => (Raise TypeError, h)
  end.

Definition write (l : loc) (o : object) : M unit := fun h =>
  (Ok tt, <[l := o]> h).

Fixpoint assoc (k : string) (fields : list (string * value)) : option value :=
  match fields with
  | [] => None
  | (k', v) :: rest => if String.eqb k k' then Some v else assoc k rest
  end.

(** [o[k]]. *)
Definition py_getitem (o : value) (k : string) : M value :=
  match o with
  | VRef l =>
      obj ← read l;
      match obj with
      | ODict fields =>
          match assoc k fields with
          | Some v => mret v
          | None => raise (KeyError k)
          end
      | OList _ => raise TypeError
      end
  | _ => raise TypeError
  end.

(** [o.get(k)]. *)
Definition py_get (o : value) (k : string) : M value :=
  match o with
  | VRef l =>
      obj ← read l;
      match obj with
      | ODict fields =>
          match assoc k fields with
          | Some v => mret v
          | None => mret VNone
          end
      | OList _ => raise AttributeError
      end
  | _ => raise AttributeError
  end.

Definition is_none (x : value) : bool :=
  match x with
  | VNone => true
  | _ => false
  end.

(** [bool(x)]. *)
Definition truthy (x : value) : M bool :=
  match x with
  | VNone => mret false
  | VBool b => mret b
  | VInt z => mret (negb (z =? 0))
  | VFloat f => mret (negb (PrimFloat.eqb f PrimFloat.zero))
  | VStr s => mret (negb (String.eqb s ""))
  | VRef l =>
      obj ← read l;
      match obj with
      | ODict fields => mret (match fields with [] => false | _ => true end)
      | OList items => mret (match items with [] => false | _ => true end)
      end
  end.

Definition chars (s : string) : list value := map VStr (code_points s).

(** [for x in o]: the elements the loop will visit.  The loops of the
    script write to no list they iterate over, so the elements are read
    once, when the loop starts. *)
Definition py_iter (o : value) : M (list value) :=
  match o with
  | VStr s => mret (chars s)
  | VRef l =>
      obj ← read l;
      match obj with
      | OList items => mret items
      | ODict fields => mret (map (fun kv => VStr (fst kv)) fields)
      end
  | _ => raise TypeError
  end.

(** [l.append(x)]: the list at [l] is changed in place. *)
Definition py_append (l : loc) (x : value) : M unit :=
  obj ← read l;
  match obj with
  | OList items => write l (OList (items ++ [x]))
  | ODict _ => raise AttributeError
  end.

Fixpoint rule_has_counter_loop (exprs : list value) : M bool :=
  match exprs with
  | [] => mret false
  | expr :: rest =>
      c ← py_get expr "counter";
      if negb (is_none c) then mret true else rule_has_counter_loop rest
  end.

Definition rule_has_counter (rule : value) : M bool :=
  e ← py_getitem rule "expr";
  exprs ← py_iter e;
  rule_has_counter_loop exprs.

Fixpoint search_loop (objects : list value) (ret : loc) : M unit :=
  match objects with
  | [] => mret tt
  | object :: rest =>
      rule ← py_get object "rule";
      t ← truthy rule;
      if negb t then search_loop rest ret
      else
        has ← rule_has_counter rule;
        if negb has then search_loop rest ret
        else
          f ← py_getitem rule "family";
          t ← py_getitem rule "table";
          c ← py_getitem rule "chain";
          h ← py_getitem rule "handle";
          d ← alloc (ODict [("family", f); ("table", t);
                            ("chain", c); ("handle", h)]);
          _ ← py_append ret (VRef d);
          search_loop rest ret
  end.

Definition search_rules_with_counter (data_structure : value) : M value :=
  ret ← alloc (OList []);
  n ← py_getitem data_structure "nftables";
  objects ← py_iter n;
  _ ← search_loop objects ret;
  mret (VRef ret).

End Store.

(** ** The documents of the script *)

(** A RulesetDocument: [{"nftables": [...]}]. *)
Definition ruleset_document (statements : list json) : json :=
  JObject [("nftables", JArray statements)].

(** [{"match": {"op": "==", "left": {"payload": {"protocol": p,
    "field": "dport"}}, "right": port}}] *)
Definition match_dport (protocol : string) (port : Z) : json :=
  JObject [("match",
    JObject [("op", JString "==");
             ("left", JObject [("payload",
                 JObject [("protocol", JString protocol);
                          ("field", JString "dport")])]);
             ("right", JInt port)])].

Definition accept : json := JObject [("accept", JNull)].

(** The second rule of [NFTABLES_RULESET_JSON] ([tcp dport 22 counter
    accept]), with its [{ "counter": null }]. *)
Definition literal_rule_tcp22 : json :=
  JObject [("family", JString "inet");
           ("table", JString "mytable");
           ("chain", JString "mychain");
           ("expr", JArray [match_dport "tcp" 22;
                            JObject [("counter", JNull)];
                            accept])].

(** A rule as the library lists it, with the handle that
    [set_handle_output(True)] asks for. *)
Definition listed_rule (handle : Z) (exprs : list json) : json :=
  JObject [("rule",
    JObject [("family", JString "inet");
             ("table", JString "mytable");
             ("chain", JString "mychain");
             ("handle", JInt handle);
             ("expr", JArray exprs)])].

Definition counter_of (packets bytes : Z) : json :=
  JObject [("counter", JObject [("packets", JInt packets); ("bytes", JInt bytes)])].

Definition listed_metainfo : json :=
  JObject [("metainfo",
    JObject [("version", JString "1.0.6");
             ("release_name", JString "Lester Gooch #5");
             ("json_schema_version", JInt 1)])].

Definition listed_table : json :=
  JObject [("table",
    JObject [("family", JString "inet"); ("name", JString "mytable");
             ("handle", JInt 1)])].

Definition listed_chain : json :=
  JObject [("chain",
    JObject [("family", JString "inet"); ("table", JString "mytable");
             ("name", JString "mychain"); ("handle", JInt 1)])].

(** The listing of the ruleset that the script loads: three rules, the
    second with a counter. *)
Definition kernel_ruleset : json :=
  ruleset_document
    [listed_metainfo; listed_table; listed_chain;
     listed_rule 2 [match_dport "udp" 53; accept];
     listed_rule 3 [match_dport "tcp" 22; counter_of 0 0; accept];
     listed_rule 4 [match_dport "tcp" 80; accept]].

(** The same listing when the counter is listed without its state, as
    [{"counter": null}], the form the script's own literal uses. *)
Definition kernel_ruleset_stateless : json :=
  ruleset_document
    [listed_metainfo; listed_table; listed_chain;
     listed_rule 2 [match_dport "udp" 53; accept];
     listed_rule 3 [match_dport "tcp" 22; JObject [("counter", JNull)]; accept];
     listed_rule 4 [match_dport "tcp" 80; accept]].

Definition inet_selector (handle : json) : json :=
  selector_dict (JString "inet") (JString "mytable") (JString "mychain") handle.

(** ** The vocabulary of the specification *)

Definition is_object (x : json) : bool :=
  match x with
  | JObject _ => true
  | _ => false
  end.

(** An entry is tagged [tag] when it is an object with that key. *)
Definition tagged (tag : string) (entry : json) : bool :=
  match entry with
  | JObject fields => bool_decide (is_Some (assoc tag fields))
  | _ => false
  end.

(** The value of a field of an object ([None] when there is none). *)
Definition field (k : string) (o : json) : json :=
  match o with
  | JObject fields => default JNull (assoc k fields)
  | _ => JNull
  end.

(** The expression entries of a rule. *)
Definition rule_exprs (rule : json) : list json :=
  match field "expr" rule with
  | JArray exprs => exprs
  | _ => []
  end.

(** [has_counter(rule) = exists e in rule.expr such that e is tagged
    "counter"]. *)
Definition has_counter (rule : json) : bool :=
  existsb (tagged "counter") (rule_exprs rule).

(** The RuleSelector of a rule entry. *)
Definition rule_selector (rule : json) : json :=
  selector_dict (field "family" rule) (field "table" rule)
                (field "chain" rule) (field "handle" rule).

(** The payloads of the statements tagged ["rule"], in document order. *)
Definition rule_entries (statements : list json) : list json :=
  map (field "rule") (List.filter (tagged "rule") statements).

(** [find_matching_rules(D, predicate)] in the words of the
    specification. *)
Definition find_matching_rules (predicate : json -> bool) (statements : list json)
  : list json :=
  map rule_selector (List.filter predicate (rule_entries statements)).

(** What [rule_has_counter] looks for in an expression entry: a
    ["counter"] key whose value is not [None]. *)
Definition counter_not_none (entry : json) : bool :=
  tagged "counter" entry && negb (is_none (field "counter" entry)).

(** The rules that [rule_has_counter] accepts. *)
Definition has_counter_not_none (rule : json) : bool :=
  existsb counter_not_none (rule_exprs rule).

(** Every counter entry of every rule of the document carries a value,
    as in a listing with the state of the counters. *)
Definition counters_stated (d : json) : bool :=
  forallb (fun rule =>
             forallb (fun e => negb (tagged "counter" e)
                               || negb (is_none (field "counter" e)))
                     (rule_exprs rule))
          (rule_entries
             (match field "nftables" d with
              | JArray statements => statements
              | _ => []
              end)).

(** Well-formed input: every statement is an object, and the payload of a
    statement tagged ["rule"] carries family, table, chain, handle and an
    expr sequence of objects. *)
Definition wf_rule (rule : json) : bool :=
  tagged "family" rule && tagged "table" rule && tagged "chain" rule
  && tagged "handle" rule
  && match rule with
     | JObject fields =>
         match assoc "expr" fields with
         | Some (JArray exprs) => forallb is_object exprs
         | _ => false
         end
     | _ => false
     end.

Definition wf_statement (o : json) : bool :=
  is_object o && (negb (tagged "rule" o) || wf_rule (field "rule" o)).

Definition wf_document (d : json) : bool :=
  match d with
  | JObject fields =>
      match assoc "nftables" fields with
      | Some (JArray statements) => forallb wf_statement statements
      | _ => false
      end
  | _ => false
  end.

(** The entries of a command document. *)
Definition command_entries (command : json) : list json :=
  match field "nftables" command with
  | JArray entries => entries
  | _ => []
  end.

(** ** The vocabulary of the listing read by [nft_cmd] *)

(** The payloads [o[type]] of the entries that contain the key [type],
    in the order of the entries. *)
Definition payloads (type : string) (entries : list json) : list json :=
  map (field type) (List.filter (tagged type) entries).

Definition is_number (x : json) : bool :=
  match x with
  | JInt _ | JFloat _ => true
  | _ => false
  end.

(** The schema version of a metainfo payload is above 1. *)
Definition schema_version_above_1 (metainfo : json) : bool :=
  match field "json_schema_version" metainfo with
  | JInt z => 1 <? z
  | JFloat f => PrimFloat.ltb PrimFloat.one f
  | _ => false
  end.

(** A listing as the library produces it: every entry is an object, and
    a metainfo payload carries a numeric [json_schema_version]. *)
Definition wf_metainfo (metainfo : json) : bool :=
  tagged "json_schema_version" metainfo
  && is_number (field "json_schema_version" metainfo).

Definition wf_listing_entry (o : json) : bool :=
  is_object o && (negb (tagged "metainfo" o) || wf_metainfo (field "metainfo" o)).

(** A listing whose metainfo announces schema version 2. *)
Definition listing_schema_2 : json :=
  ruleset_document
    [JObject [("metainfo",
       JObject [("version", JString "1.1.0");
                ("release_name", JString "Commodore Bullmoose");
                ("json_schema_version", JInt 2)])];
     JObject [("counter",
       JObject [("family", JString "ip"); ("name", JString "mycounter");
                ("table", JString "mytable"); ("handle", JInt 2);
                ("packets", JInt 0); ("bytes", JInt 0)])]].

(** ** The vocabulary of the store *)

(** A computation that only reads leaves the store as it found it. *)
Definition reads {A : Type} (m : Store.M A) : Prop :=
  forall h : Store.store, snd (m h) = h.

(** The object that [dict(family=..., table=..., chain=..., handle=...)]
    allocates. *)
Definition selector_object (o : Store.object) : Prop :=
  exists f t c h : Store.value,
    o = Store.ODict [("family", f); ("table", t); ("chain", c); ("handle", h)].

(** A value that is no reference: [None], a number, a string.  Such a
    value cannot be changed through another name. *)
Definition is_scalar (v : Store.value) : bool :=
  match v with
  | Store.VRef _ => false
  | _ => true
  end.

(** The keys that a selector copies from a rule. *)
Definition selector_keys : list string := ["family"; "table"; "chain"; "handle"].

(** A dict holds scalars under the selector keys. *)
Definition scalar_selector_fields (o : Store.object) : Prop :=
  match o with
  | Store.ODict fields =>
      forall (k : string) (v : Store.value),
        In k selector_keys -> Store.assoc k fields = Some v -> is_scalar v = true
  | Store.OList _ => True
  end.

(** A store of rulesets: the payload of a ["rule"] key, when it is a
    dict, holds scalars under the selector keys (family, table and chain
    are strings, the handle is an integer). *)
Definition rule_payloads_scalar (h : Store.store) : Prop :=
  forall (l r : Store.loc) (fields fields' : list (string * Store.value)),
    h !! l = Some (Store.ODict fields) ->
    Store.assoc "rule" fields = Some (Store.VRef r) ->
    h !! r = Some (Store.ODict fields') ->
    scalar_selector_fields (Store.ODict fields').

(** The same, as a test that runs. *)
Definition rule_payload_scalarb (h : Store.store) (o : Store.object) : bool :=
  match o with
  | Store.ODict fields =>
      match Store.assoc "rule" fields with
      | Some (Store.VRef r) =>
          match h !! r with
          | Some (Store.ODict fields') =>
              forallb (fun k => match Store.assoc k fields' with
                                | Some v => is_scalar v
                                | None => true
                                end) selector_keys
          | _ => true
          end
      | _ => true
      end
  | Store.OList _ => true
  end.

(** The listing [kernel_ruleset] laid out in a store: every list and
    dict at a location of its own, the document at location 0. *)
Definition kernel_store : Store.store :=
  [ (* 0 *) Store.ODict [("nftables", Store.VRef 1)];
    (* 1 *) Store.OList [Store.VRef 2; Store.VRef 4; Store.VRef 6];
    (* 2 *) Store.ODict [("table", Store.VRef 3)];
    (* 3 *) Store.ODict [("family", Store.VStr "inet");
                         ("name", Store.VStr "mytable");
                         ("handle", Store.VInt 1)];
    (* 4 *) Store.ODict [("rule", Store.VRef 5)];
    (* 5 *) Store.ODict [("family", Store.VStr "inet");
                         ("table", Store.VStr "mytable");
                         ("chain", Store.VStr "mychain");
                         ("handle", Store.VInt 3);
                         ("expr", Store.VRef 9)];
    (* 6 *) Store.ODict [("rule", Store.VRef 7)];
    (* 7 *) Store.ODict [("family", Store.VStr "inet");
                         ("table", Store.VStr "mytable");
                         ("chain", Store.VStr "mychain");
                         ("handle", Store.VInt 4);
                         ("expr", Store.VRef 8)];
    (* 8 *) Store.OList [Store.VRef 13];
    (* 9 *) Store.OList [Store.VRef 10; Store.VRef 12];
    (* 10 *) Store.ODict [("counter", Store.VRef 11)];
    (* 11 *) Store.ODict [("packets", Store.VInt 0); ("bytes", Store.VInt 0)];
    (* 12 *) Store.ODict [("accept", Store.VNone)];
    (* 13 *) Store.ODict [("accept", Store.VNone)] ].

(** The document that [kernel_store] holds at location 0. *)
Definition kernel_store_document : json :=
  ruleset_document
    [listed_table;
     listed_rule 3 [counter_of 0 0; accept];
     listed_rule 4 [accept]].

(** ** Documents in the store *)

(** Induction on a document, with the elements of a list and the values
    of a dict as sub-documents. *)
Section JsonInduction.
Variable P : json -> Prop.
Hypothesis Hnull : P JNull.
Hypothesis Hbool : forall b, P (JBool b).
Hypothesis Hint : forall z, P (JInt z).
Hypothesis Hfloat : forall f, P (JFloat f).
Hypothesis Hstring : forall s, P (JString s).
Hypothesis Harray : forall items, Forall P items -> P (JArray items).
Hypothesis Hobject :
  forall fields, Forall (fun kv => P (snd kv)) fields -> P (JObject fields).

Fixpoint json_nested_ind (j : json) : P j :=
  match j with
  | JNull => Hnull
  | JBool b => Hbool b
  | JInt z => Hint z
  | JFloat f => Hfloat f
  | JString s => Hstring s
  | JArray items =>
      Harray items
        ((fix all (l : list json) : Forall P l :=
            match l with
            | [] => @List.Forall_nil _ P
            | x :: r => @List.Forall_cons _ P x r (json_nested_ind x) (all r)
            end) items)
  | JObject fields =>
      Hobject fields
        ((fix all (l : list (string * json)) : Forall (fun kv => P (snd kv)) l :=
            match l with
            | [] => @List.Forall_nil _ _
            | kv :: r => @List.Forall_cons _ _ kv r (json_nested_ind (snd kv)) (all r)
            end) fields)
  end.
End JsonInduction.

(** The value [v] is, in the store [h], the document [j]: scalars are
    themselves, a list is a reference to a list object whose elements are
    the elements of [j], a dict a reference to a dict object with the
    keys of [j] in the same order. *)
#[warnings="-register-all"]
Inductive repr (h : Store.store) : json -> Store.value -> Prop :=
| repr_null : repr h JNull Store.VNone
| repr_bool b : repr h (JBool b) (Store.VBool b)
| repr_int z : repr h (JInt z) (Store.VInt z)
| repr_float f : repr h (JFloat f) (Store.VFloat f)
| repr_string s : repr h (JString s) (Store.VStr s)
| repr_array l items vs :
    h !! l = Some (Store.OList vs) ->
    Forall2 (repr h) items vs ->
    repr h (JArray items) (Store.VRef l)
| repr_object l fields kvs :
    h !! l = Some (Store.ODict kvs) ->
    Forall2 (fun f kv => fst f = fst kv /\ repr h (snd f) (snd kv)) fields kvs ->
    repr h (JObject fields) (Store.VRef l).

(** Two results agree: both return, related values, or both raise the
    same exception. *)
Definition agree {A B : Type} (R : A -> B -> Prop)
           (x : result A) (y : result B) : Prop :=
  match x, y with
  | Ok a, Ok b => R a b
  | Raise e, Raise e' => e = e'
  | _, _ => False
  end.

(** The store [h] holds every object of [h0], unchanged. *)
Definition keeps (h0 h : Store.store) : Prop :=
  forall (l : Store.loc) (o : Store.object), h0 !! l = Some o -> h !! l = Some o.

(** The value [x] is, in [h], a selector built from fields that are
    documents of [h0]. *)
Definition selector_repr (h0 h : Store.store) (sel : json) (x : Store.value)
  : Prop :=
  exists (s : Store.loc) (f t c hd : Store.value) (jf jt jc jh : json),
    x = Store.VRef s
    /\ h !! s = Some (Store.ODict [("family", f); ("table", t);
                                   ("chain", c); ("handle", hd)])
    /\ sel = selector_dict jf jt jc jh
    /\ repr h0 jf f /\ repr h0 jt t /\ repr h0 jc c /\ repr h0 jh hd.

(** * The scripts as programs

    The rest of the four scripts: what they print, how they end, and
    which calls they make to the library, in order.  The library
    ([nftables.Nftables]) and the parts of Python that are not modelled
    here ([json.loads], [str] of a float, a list, a dict or an
    exception) are parameters. *)

(** [len(x)]. *)
Definition py_len (x : json) : result nat :=
  match x with
  | JString s => Ok (length (code_points s))
  | JArray items => Ok (length items)
  | JObject fields => Ok (length fields)
  | _ => Raise TypeError
  end.

(** [str(z)] for an int. *)
Definition str_int (z : Z) : string := NilZero.string_of_int (Z.to_int z).

(** The double quote, as a string. *)
Definition dq : string := String "034"%char EmptyString.

(** [template.format(a, b, ...)] for the templates of the scripts, with the
    arguments already turned into strings: [{}] takes the next argument,
    [{{] and [}}] are braces.  [None] when Python raises: no argument is
    left for a field, or a brace opens another kind of field. *)
Fixpoint py_format (template : string) (args : list string) : option string :=
  match template with
  | EmptyString => Some EmptyString
  | String c rest =>
      if Ascii.eqb c "{" then
        match rest with
        | String c' rest' =>
            if Ascii.eqb c' "}" then
              match args with
              | a :: args' => option_map (String.append a) (py_format rest' args')
              | [] => None
              end
            else if Ascii.eqb c' "{" then
              option_map (String "{") (py_format rest' args)
            else None
        | EmptyString => None
        end
      else if Ascii.eqb c "}" then
        match rest with
        | String c' rest' =>
            if Ascii.eqb c' "}" then option_map (String "}") (py_format rest' args)
            else None
        | EmptyString => None
        end
      else option_map (String c) (py_format rest args)
  end.

(** What Python itself provides and is not modelled. *)
Class Python : Type := {
  (** [json.loads] *)
  json_loads : string -> result json;
  (** [str(x)] for a float, a list or a dict *)
  str_other : json -> string;
  (** [str(e)] for a caught exception *)
  str_exn : exn -> string
}.

(** [str(x)], as [print], [format] and an f-string apply it. *)
Definition py_str `{Python} (x : json) : string :=
  match x with
  | JNull => "None"
  | JBool true => "True"
  | JBool false => "False"
  | JInt z => str_int z
  | JString s => s
  | _ => str_other x
  end.

(** The library object: [engine] is its state (with the kernel behind
    it).  [json_validate] raises or returns nothing: [Some msg] is an
    exception [e] with [str(e) = msg]. *)
Class Nftables (engine : Type) : Type := {
  (** [nftables.Nftables()] *)
  new_engine : engine;
  set_json_output : bool -> engine -> engine;
  set_handle_output : bool -> engine -> engine;
  set_stateless_output : bool -> engine -> engine;
  set_service_output : bool -> engine -> engine;
  set_reversedns_output : bool -> engine -> engine;
  set_numeric_proto_output : bool -> engine -> engine;
  (** [nft.cmd(text)]: [(rc, output, error)] *)
  cmd : string -> engine -> (Z * string * string) * engine;
  (** [nft.json_cmd(root)]: [(rc, output, error)], the output decoded
      when it is not empty *)
  json_cmd : json -> engine -> (Z * json * string) * engine;
  json_validate : json -> option string
}.

(** The calls that a script makes to the library. *)
Inductive call : Type :=
| SetJsonOutput (b : bool)
| SetHandleOutput (b : bool)
| SetStatelessOutput (b : bool)
| SetServiceOutput (b : bool)
| SetReversednsOutput (b : bool)
| SetNumericProtoOutput (b : bool)
| Cmd (text : string)
| JsonCmd (root : json)
| JsonValidate (root : json).

(** An exception that no handler of the script catches. *)
Inductive failure : Type :=
| Exn (e : exn)
| FormatError.

(** How a script, or a function of it, ends. *)
Inductive ending (A : Type) : Type :=
| Done (a : A)
| SystemExit (status : Z)
| Uncaught (e : failure).
Arguments Done {A} a.
Arguments SystemExit {A} status.
Arguments Uncaught {A} e.

(** The state a script runs in: the library object, the calls made to it
    so far and the lines printed so far. *)
Record world (engine : Type) : Type := World {
  nft : engine;
  calls : list call;
  printed : list string
}.
Arguments World {engine} nft calls printed.
Arguments nft {engine} w.
Arguments calls {engine} w.
Arguments printed {engine} w.

Definition Script (engine : Type) (A : Type) : Type :=
  world engine -> ending A * world engine.

#[global] Instance Script_ret {engine : Type} : MRet (Script engine) :=
  fun A a w => (Done a, w).

#[global] Instance Script_bind {engine : Type} : MBind (Script engine) :=
  fun A B k m w =>
    match m w with
    | (Done a, w') => k a w'
    | (SystemExit status, w') => (SystemExit status, w')
    | (Uncaught e, w') => (Uncaught e, w')
    end.

Section ScriptOperations.
Context {engine : Type} `{Nftables engine}.

(** [print(line)] *)
Definition print (line : string) : Script engine unit := fun w =>
  (Done tt, World (nft w) (calls w) (printed w ++ [line])).

(** [exit(status)] *)
Definition exit {A : Type} (status : Z) : Script engine A := fun w =>
  (SystemExit status, w).

(** An operation on values that returns or raises. *)
Definition lift {A : Type} (r : result A) : Script engine A := fun w =>
  match r with
  | Ok a => (Done a, w)
  | Raise e => (Uncaught (Exn e), w)
  end.

(** A setter of the library object; the scripts drop what it returns. *)
Definition configure (c : call) (set : engine -> engine) : Script engine unit :=
  fun w => (Done tt, World (set (nft w)) (calls w ++ [c]) (printed w)).

Definition call_cmd (text : string) : Script engine (Z * string * string) :=
  fun w =>
    let '(answer, e) := cmd text (nft w) in
    (Done answer, World e (calls w ++ [Cmd text]) (printed w)).

Definition call_json_cmd (root : json) : Script engine (Z * json * string) :=
  fun w =>
    let '(answer, e) := json_cmd root (nft w) in
    (Done answer, World e (calls w ++ [JsonCmd root]) (printed w)).

Definition call_json_validate (root : json) : Script engine (option string) :=
  fun w =>
    (Done (json_validate root),
     World (nft w) (calls w ++ [JsonValidate root]) (printed w)).

(** The world in which a script starts, with [nft = nftables.Nftables()]. *)
Definition start : world engine := World new_engine [] [].
End ScriptOperations.

(** A [for] loop over a list, with a body that may exit or raise. *)
Fixpoint for_each {engine A : Type} (xs : list A) (body : A -> Script engine unit)
  : Script engine unit :=
  match xs with
  | [] => mret tt
  | x :: rest => body x;; for_each rest body
  end.

(** ** nft-read-counters-and-quotas.py, the script *)

Module ReadCounters.
Section Program.
Context `{Python} {engine : Type} `{Nftables engine}.

(** The call [nft_cmd(nft, text)]: the library answers, [nft_cmd] goes
    on from the answer. *)
Definition nft_cmd_call (text : string) : Script engine json := fun w =>
  let '(answer, e) := cmd text (nft w) in
  let '(lines, out) := nft_cmd json_loads answer text in
  let w' := World e (calls w ++ [Cmd text]) (printed w ++ lines) in
  match out with
  | Returned ruleset => (Done ruleset, w')
  | Exited status => (SystemExit status, w')
  | Raised x => (Uncaught (Exn x), w')
  end.

Definition counter_template : string :=
  ("Counter " ++ dq ++ "{}" ++ dq ++ " in table {} {}: packets {} bytes {}")%string.

Definition quota_template : string :=
  ("Quota " ++ dq ++ "{}" ++ dq
   ++ " in table {} {}: used {} out of {} bytes (inv: {})")%string.

(** The body of the loops of [main]: the fields are looked up from left
    to right, then formatted, then printed. *)
Definition print_fields (template : string) (keys : list string) (o : json)
  : Script engine unit :=
  values ← lift (mapM (py_getitem o) keys);
  match py_format template (map py_str values) with
  | Some line => print line
  | None => fun w => (Uncaught FormatError, w)
  end.

Definition main : Script engine unit :=
  configure (SetJsonOutput true) (set_json_output true);;
  configure (SetStatelessOutput false) (set_stateless_output false);;
  configure (SetServiceOutput false) (set_service_output false);;
  configure (SetReversednsOutput false) (set_reversedns_output false);;
  configure (SetNumericProtoOutput true) (set_numeric_proto_output true);;
  ruleset ← nft_cmd_call "list counters";
  counters ← lift (_find_objects ruleset "counter");
  for_each counters
    (print_fields counter_template ["name"; "family"; "table"; "packets"; "bytes"]);;
  ruleset ← nft_cmd_call "list quotas";
  quotas ← lift (_find_objects ruleset "quota");
  for_each quotas
    (print_fields quota_template
                  ["name"; "family"; "table"; "used"; "bytes"; "inv"]).
End Program.
End ReadCounters.

(** ** nft-delete-rule.py, the script *)

Module DeleteRule.

(** The text of the ruleset that the script loads. *)
Definition NFTABLES_RULESET_JSON : string :=
  String.concat dq
  ["
{ ";
   "nftables";
   ": [
    { ";
   "flush";
   ": { ";
   "ruleset";
   ": null } },
    { ";
   "add";
   ": { ";
   "table";
   ": {
        ";
   "family";
   ": ";
   "inet";
   ",
        ";
   "name";
   ": ";
   "mytable";
   "
    }}},
    { ";
   "add";
   ": { ";
   "chain";
   ": {
        ";
   "family";
   ": ";
   "inet";
   ",
        ";
   "table";
   ": ";
   "mytable";
   ",
        ";
   "name";
   ": ";
   "mychain";
   "
    }}},
    { ";
   "add";
   ": { ";
   "rule";
   ": {
        ";
   "family";
   ": ";
   "inet";
   ",
        ";
   "table";
   ": ";
   "mytable";
   ",
        ";
   "chain";
   ": ";
   "mychain";
   ",
        ";
   "expr";
   ": [
            { ";
   "match";
   ": {
                ";
   "op";
   ": ";
   "==";
   ",
                ";
   "left";
   ": { ";
   "payload";
   ": {
                    ";
   "protocol";
   ": ";
   "udp";
   ",
                    ";
   "field";
   ": ";
   "dport";
   "
                }},
                ";
   "right";
   ": 53
            }},
            { ";
   "accept";
   ": null }
        ]
    }}},
    { ";
   "add";
   ": { ";
   "rule";
   ": {
        ";
   "family";
   ": ";
   "inet";
   ",
        ";
   "table";
   ": ";
   "mytable";
   ",
        ";
   "chain";
   ": ";
   "mychain";
   ",
        ";
   "expr";
   ": [
            { ";
   "match";
   ": {
                ";
   "op";
   ": ";
   "==";
   ",
                ";
   "left";
   ": { ";
   "payload";
   ": {
                    ";
   "protocol";
   ": ";
   "tcp";
   ",
                    ";
   "field";
   ": ";
   "dport";
   "
                }},
                ";
   "right";
   ": 22
            }},
            { ";
   "counter";
   ": null },
            { ";
   "accept";
   ": null }
        ]
    }}},
    { ";
   "add";
   ": { ";
   "rule";
   ": {
        ";
   "family";
   ": ";
   "inet";
   ",
        ";
   "table";
   ": ";
   "mytable";
   ",
        ";
   "chain";
   ": ";
   "mychain";
   ",
        ";
   "expr";
   ": [
            { ";
   "match";
   ": {
                ";
   "op";
   ": ";
   "==";
   ",
                ";
   "left";
   ": { ";
   "payload";
   ": {
                    ";
   "protocol";
   ": ";
   "tcp";
   ",
                    ";
   "field";
   ": ";
   "dport";
   "
                }},
                ";
   "right";
   ": 80
            }},
            { ";
   "accept";
   ": null }
        ]
    }}}
]}
"].

Section Program.
Context `{Python} {engine : Type} `{Nftables engine}.

Definition load_ruleset : Script engine unit :=
  data_structure ←
    match json_loads NFTABLES_RULESET_JSON with
    | Ok d => mret d
    | Raise JSONDecodeError =>
        print ("ERROR: failed to decode JSON: " ++ str_exn JSONDecodeError)%string;;
        exit 1
    | Raise e => lift (Raise e)
    end;
  invalid ← call_json_validate data_structure;
  match invalid with
  | Some msg => print ("ERROR: failed validating JSON schema: " ++ msg)%string;; exit 1
  | None => mret tt
  end;;
  '(rc, output, error) ← call_json_cmd data_structure;
  (if negb (rc =? 0)
   then print ("ERROR: running JSON cmd: " ++ error)%string;; exit 1
   else mret tt);;
  n ← lift (py_len output);
  if negb (n =? 0)%nat
  then print ("WARNING: output: " ++ py_str output)%string
  else mret tt.

Definition get_ruleset : Script engine json :=
  '(rc, output, error) ← call_cmd "list ruleset";
  (if negb (rc =? 0)
   then print "ERROR: running cmd 'list ruleset'";; print error;; exit 1
   else mret tt);;
  (if (String.length output =? 0)%nat
   then print "ERROR: no output from libnftables";; exit 0
   else mret tt);;
  data_structure ← lift (json_loads output);
  invalid ← call_json_validate data_structure;
  match invalid with
  | Some msg => print ("ERROR: failed validating json schema: " ++ msg)%string;; exit 1
  | None => mret tt
  end;;
  mret data_structure.

Definition main : Script engine unit :=
  configure (SetJsonOutput true) (set_json_output true);;
  configure (SetHandleOutput true) (set_handle_output true);;
  load_ruleset;;
  kernel_ruleset ← get_ruleset;
  info_about_rules_to_delete ← lift (search_rules_with_counter kernel_ruleset);
  let delete_rules_command := build_delete_command info_about_rules_to_delete in
  invalid ← call_json_validate delete_rules_command;
  match invalid with
  | Some msg => print ("ERROR: failed validating JSON schema: " ++ msg)%string;; exit 1
  | None => mret tt
  end;;
  '(rc, output, error) ← call_json_cmd delete_rules_command;
  (if negb (rc =? 0)
   then print ("ERROR: running JSON cmd: " ++ error)%string;; exit 1
   else mret tt);;
  n ← lift (py_len output);
  (if negb (n =? 0)%nat
   then print ("WARNING: output: " ++ py_str output)%string
   else mret tt);;
  exit 0.
End Program.
End DeleteRule.

(** ** nft-load-example-ruleset.py *)

Module LoadExample.

Definition NFTABLES_JSON : string :=
  String.concat dq
  ["
{ ";
   "nftables";
   ": [
    { ";
   "flush";
   ": { ";
   "ruleset";
   ": null } },
    { ";
   "add";
   ": { ";
   "table";
   ": {
        ";
   "family";
   ": ";
   "inet";
   ",
        ";
   "name";
   ": ";
   "mytable";
   "
    }}},
    { ";
   "add";
   ": { ";
   "chain";
   ": {
        ";
   "family";
   ": ";
   "inet";
   ",
        ";
   "table";
   ": ";
   "mytable";
   ",
        ";
   "chain";
   ": ";
   "mychain";
   "
    }}},
    { ";
   "add";
   ": { ";
   "rule";
   ": {
        ";
   "family";
   ": ";
   "inet";
   ",
        ";
   "table";
   ": ";
   "mytable";
   ",
        ";
   "chain";
   ": ";
   "mychain";
   ",
        ";
   "expr";
   ": [
            { ";
   "match";
   ": {
                ";
   "left";
   ": { ";
   "payload";
   ": {
                    ";
   "protocol";
   ": ";
   "tcp";
   ",
                    ";
   "field";
   ": ";
   "dport";
   "
                }},
                ";
   "right";
   ": 22
            }},
            { ";
   "accept";
   ": null }
        ]
    }}}
]}
"].

Section Program.
Context `{Python} {engine : Type} `{Nftables engine}.

Definition main : Script engine unit :=
  data_structure ←
    match json_loads NFTABLES_JSON with
    | Ok d => mret d
    | Raise JSONDecodeError =>
        print ("ERROR: failed to decode JSON: " ++ str_exn JSONDecodeError)%string;;
        exit 1
    | Raise e => lift (Raise e)
    end;
  invalid ← call_json_validate data_structure;
  match invalid with
  | Some msg => print ("ERROR: failed validating json schema: " ++ msg)%string;; exit 1
  | None => mret tt
  end;;
  print ("INFO: running json cmd: " ++ py_str data_structure)%string;;
  '(rc, output, error) ← call_json_cmd data_structure;
  (if negb (rc =? 0)
   then print ("ERROR: running json cmd: " ++ error)%string;; exit 1
   else mret tt);;
  n ← lift (py_len output);
  (if negb (n =? 0)%nat
   then print ("WARNING: output: " ++ py_str output)%string
   else mret tt);;
  exit 0.
End Program.
End LoadExample.

(** ** nft-read-json.py *)

Module ReadJson.
Section Program.
Context `{Python} {engine : Type} `{Nftables engine}.

(** The line feed, as a string. *)
Definition nl : string := String "010"%char EmptyString.

Definition main : Script engine unit :=
  configure (SetJsonOutput true) (set_json_output true);;
  configure (SetStatelessOutput false) (set_stateless_output false);;
  configure (SetServiceOutput false) (set_service_output false);;
  configure (SetReversednsOutput false) (set_reversedns_output false);;
  configure (SetNumericProtoOutput true) (set_numeric_proto_output true);;
  '(rc, output, error) ← call_cmd "list ruleset";
  (if negb (rc =? 0)
   then print "ERROR: running cmd 'list ruleset'";; print error;; exit 1
   else mret tt);;
  (if (String.length output =? 0)%nat
   then print "ERROR: no output from libnftables";; exit 0
   else mret tt);;
  match py_format ("raw libnftables JSON output:" ++ nl ++ "{}")%string [output] with
  | Some line => print line
  | None => fun w => (Uncaught FormatError, w)
  end;;
  data_structure ← lift (json_loads output);
  match py_format ("native python data structure:" ++ nl ++ "{}")%string
                  [py_str data_structure] with
  | Some line => print line
  | None => fun w => (Uncaught FormatError, w)
  end.
End Program.
End ReadJson.

(** ** The vocabulary of the further properties *)

(** The first of the selector keys that a rule lacks. *)
Definition first_missing (rule : json) : option string :=
  List.find (fun k => negb (tagged k rule)) selector_keys.

(** A value is a selector: a dict with the four keys, in order. *)
Definition is_selector (x : json) : Prop :=
  exists f t c h : json, x = selector_dict f t c h.

(** The warnings that [nft_cmd] prints for a listing. *)
Definition schema_warnings (entries : list json) : list string :=
  map (fun _ => schema_warning)
      (List.filter schema_version_above_1 (payloads "metainfo" entries)).

(** The five settings that [nft-read-counters-and-quotas.py] and
    [nft-read-json.py] apply, and the library object after them. *)
Definition read_settings : list call :=
  [SetJsonOutput true; SetStatelessOutput false; SetServiceOutput false;
   SetReversednsOutput false; SetNumericProtoOutput true].

Definition read_configured {engine : Type} `{Nftables engine} : engine :=
  set_numeric_proto_output true
    (set_reversedns_output false
       (set_service_output false
          (set_stateless_output false
             (set_json_output true new_engine)))).

Definition counter_keys : list string :=
  ["name"; "family"; "table"; "packets"; "bytes"].

Definition quota_keys : list string :=
  ["name"; "family"; "table"; "used"; "bytes"; "inv"].

(** An object has all the keys of a list. *)
Definition has_keys (keys : list string) (o : json) : bool :=
  forallb (fun k => tagged k o) keys.

(** The line printed for a counter and for a quota. *)
Definition counter_line `{Python} (o : json) : string :=
  ("Counter " ++ dq ++ py_str (field "name" o) ++ dq
   ++ " in table " ++ py_str (field "family" o) ++ " " ++ py_str (field "table" o)
   ++ ": packets " ++ py_str (field "packets" o)
   ++ " bytes " ++ py_str (field "bytes" o))%string.

Definition quota_line `{Python} (o : json) : string :=
  ("Quota " ++ dq ++ py_str (field "name" o) ++ dq
   ++ " in table " ++ py_str (field "family" o) ++ " " ++ py_str (field "table" o)
   ++ ": used " ++ py_str (field "used" o)
   ++ " out of " ++ py_str (field "bytes" o)
   ++ " bytes (inv: " ++ py_str (field "inv" o) ++ ")")%string.

(** ** Sample runtimes

    A Python and two libraries to run the scripts on: one that lists a
    counter, a quota and the ruleset [kernel_ruleset], and one whose
    commands fail. *)

Definition counters_listing : json :=
  ruleset_document
    [listed_metainfo;
     JObject [("counter",
       JObject [("family", JString "ip"); ("name", JString "mycounter");
                ("table", JString "mytable"); ("handle", JInt 2);
                ("packets", JInt 0); ("bytes", JInt 0)])]].

Definition quotas_listing : json :=
  ruleset_document
    [listed_metainfo;
     JObject [("quota",
       JObject [("family", JString "ip"); ("name", JString "myquota");
                ("table", JString "mytable"); ("handle", JInt 3);
                ("bytes", JInt 26214400); ("used", JInt 0);
                ("inv", JBool false)])]].

(** A listing with a counter that has lost its [packets]. *)
Definition broken_counters_listing : json :=
  ruleset_document
    [listed_metainfo;
     JObject [("counter",
       JObject [("family", JString "ip"); ("name", JString "first");
                ("table", JString "mytable");
                ("packets", JInt 5); ("bytes", JInt 300)])];
     JObject [("counter",
       JObject [("family", JString "ip"); ("name", JString "second");
                ("table", JString "mytable"); ("bytes", JInt 0)])]].

(** A listing made without [set_handle_output(True)]: the rule has a
    counter and no handle. *)
Definition handleless_ruleset : json :=
  ruleset_document
    [listed_metainfo;
     JObject [("rule",
       JObject [("family", JString "inet");
                ("table", JString "mytable");
                ("chain", JString "mychain");
                ("expr", JArray [match_dport "tcp" 22; counter_of 0 0; accept])])]].

Definition sample_python : Python := {|
  json_loads := fun text =>
    if String.eqb text "counters" then Ok counters_listing
    else if String.eqb text "quotas" then Ok quotas_listing
    else if String.eqb text "broken" then Ok broken_counters_listing
    else if String.eqb text "ruleset" then Ok kernel_ruleset
    else if String.eqb text "plain" then Ok kernel_store_document
    else if String.eqb text "handleless" then Ok handleless_ruleset
    else if String.eqb text DeleteRule.NFTABLES_RULESET_JSON
         then Ok (ruleset_document [])
    else if String.eqb text LoadExample.NFTABLES_JSON
         then Ok (ruleset_document [])
    else Raise JSONDecodeError;
  str_other := fun _ => "<value>";
  str_exn := fun _ => "<exception>"
|}.

(** The engine counts the commands it has run. *)
Definition sample_nftables : Nftables nat := {|
  new_engine := 0%nat;
  set_json_output := fun _ e => e;
  set_handle_output := fun _ e => e;
  set_stateless_output := fun _ e => e;
  set_service_output := fun _ e => e;
  set_reversedns_output := fun _ e => e;
  set_numeric_proto_output := fun _ e => e;
  cmd := fun text e =>
    ((0,
      if String.eqb text "list counters" then "counters"
      else if String.eqb text "list quotas" then "quotas"
      else "ruleset",
      ""), S e);
  json_cmd := fun _ e => ((0, JString "", ""), S e);
  json_validate := fun _ => None
|}.

(** A library that lists a broken counter. *)
Definition broken_nftables : Nftables nat := {|
  new_engine := 0%nat;
  set_json_output := fun _ e => e;
  set_handle_output := fun _ e => e;
  set_stateless_output := fun _ e => e;
  set_service_output := fun _ e => e;
  set_reversedns_output := fun _ e => e;
  set_numeric_proto_output := fun _ e => e;
  cmd := fun text e => ((0, "broken", ""), S e);
  json_cmd := fun _ e => ((0, JString "", ""), S e);
  json_validate := fun _ => None
|}.

(** A library whose commands fail and that accepts no document. *)
Definition failing_nftables : Nftables nat := {|
  new_engine := 0%nat;
  set_json_output := fun _ e => e;
  set_handle_output := fun _ e => e;
  set_stateless_output := fun _ e => e;
  set_service_output := fun _ e => e;
  set_reversedns_output := fun _ e => e;
  set_numeric_proto_output := fun _ e => e;
  cmd := fun _ e => ((1, "", "Operation not permitted"), S e);
  json_cmd := fun _ e => ((1, JString "", "Operation not permitted"), S e);
  json_validate := fun _ => Some "not valid"
|}.

(** A library whose listing is empty. *)
Definition silent_nftables : Nftables nat := {|
  new_engine := 0%nat;
  set_json_output := fun _ e => e;
  set_handle_output := fun _ e => e;
  set_stateless_output := fun _ e => e;
  set_service_output := fun _ e => e;
  set_reversedns_output := fun _ e => e;
  set_numeric_proto_output := fun _ e => e;
  cmd := fun _ e => ((0, "", ""), S e);
  json_cmd := fun _ e => ((0, JString "", ""), S e);
  json_validate := fun _ => None
|}.

(** A library that lists the rules without their handles. *)
Definition handleless_nftables : Nftables nat := {|
  new_engine := 0%nat;
  set_json_output := fun _ e => e;
  set_handle_output := fun _ e => e;
  set_stateless_output := fun _ e => e;
  set_service_output := fun _ e => e;
  set_reversedns_output := fun _ e => e;
  set_numeric_proto_output := fun _ e => e;
  cmd := fun _ e => ((0, "handleless", ""), S e);
  json_cmd := fun _ e => ((0, JString "", ""), S e);
  json_validate := fun _ => None
|}.

(** The world of [nft-delete-rule.py] after its two settings. *)
Definition delete_configured_world {engine : Type} `{Nftables engine} : world engine :=
  World (set_handle_output true (set_json_output true new_engine))
        [SetJsonOutput true; SetHandleOutput true] [].

(** The world of the samples after [load_ruleset]. *)
Definition sample_loaded : world nat :=
  World 1%nat
        [SetJsonOutput true; SetHandleOutput true;
         JsonValidate (ruleset_document []); JsonCmd (ruleset_document [])] [].

(** The two lines that [nft-read-json.py] prints. *)
Definition raw_line (output : string) : string :=
  ("raw libnftables JSON output:" ++ ReadJson.nl ++ output)%string.

Definition native_line `{Python} (d : json) : string :=
  ("native python data structure:" ++ ReadJson.nl ++ py_str d)%string.

(** ** The vocabulary of the runs *)

Section RunVocabulary.
Context `{Python} {engine : Type} `{Nftables engine}.

(** Every document that has been submitted with [json_cmd] is one that
    [json_validate] accepts. *)
Definition validated (w : world engine) : Prop :=
  forall j : json, In (JsonCmd j) (calls w) -> json_validate j = None.

(** A piece of a script keeps [validated], exits with status 0 or 1 only,
    and returns values in [V] only. *)
Definition sound {A : Type} (s : Script engine A) (V : A -> Prop) : Prop :=
  forall w : world engine,
    validated w ->
    validated (snd (s w))
    /\ match fst (s w) with
       | Done a => V a
       | SystemExit status => status = 0 \/ status = 1
       | Uncaught _ => True
       end.

(** The warning printed for the output of [json_cmd], when it has a
    length other than 0. *)
Definition output_warning (output : json) (n : nat) : list string :=
  if negb (n =? 0)%nat then [("WARNING: output: " ++ py_str output)%string] else [].
End RunVocabulary.

(** * Properties *)

(** ** The error result *)

Lemma bind_ok {A B : Type} (a : A) (k : A -> result B) :
  (Ok a ≫= k) = k a.
Proof. reflexivity. Qed.

(** ** Objects and their fields *)

Lemma py_get_object (o : json) (k : string) :
  is_object o = true -> py_get o k = Ok (field k o).
Proof.
  destruct o; simpl; try discriminate. intros _.
  destruct (assoc k fields); reflexivity.
Qed.

Lemma tagged_assoc (k : string) (fields : list (string * json)) :
  tagged k (JObject fields) = true -> assoc k fields = Some (field k (JObject fields)).
Proof.
  simpl. intros H. apply bool_decide_eq_true in H.
  destruct H as [v Hv]. rewrite Hv. reflexivity.
Qed.

Lemma tagged_is_object (k : string) (o : json) :
  tagged k o = true -> is_object o = true.
Proof. destruct o; simpl; intros H; try discriminate; reflexivity. Qed.

Lemma py_getitem_tagged (o : json) (k : string) :
  tagged k o = true -> py_getitem o k = Ok (field k o).
Proof.
  intros H. destruct o; try discriminate.
  simpl. rewrite (tagged_assoc _ _ H). reflexivity.
Qed.

Lemma not_tagged_field (k : string) (o : json) :
  tagged k o = false -> field k o = JNull.
Proof.
  destruct o; simpl; try reflexivity. intros H.
  apply bool_decide_eq_false in H.
  destruct (assoc k fields) as [v|]; [|reflexivity].
  exfalso. apply H. eexists; reflexivity.
Qed.

(** ** [rule_has_counter] *)

(** On a sequence of objects the loop finds the first entry whose
    ["counter"] is not [None]. *)
Lemma rule_has_counter_loop_objects (exprs : list json) :
  forallb is_object exprs = true ->
  rule_has_counter_loop exprs = Ok (existsb counter_not_none exprs).
Proof.
  induction exprs as [|e rest IH]; simpl; [reflexivity|].
  intros H. apply andb_true_iff in H as [He Hrest].
  rewrite (py_get_object _ _ He), bind_ok.
  unfold counter_not_none at 1.
  destruct (tagged "counter" e) eqn:Ht; simpl.
  - destruct (is_none (field "counter" e)); simpl; [apply IH; exact Hrest | reflexivity].
  - rewrite (not_tagged_field _ _ Ht). simpl. apply IH; exact Hrest.
Qed.

Lemma wf_rule_exprs (rule : json) :
  wf_rule rule = true ->
  py_getitem rule "expr" = Ok (JArray (rule_exprs rule))
  /\ forallb is_object (rule_exprs rule) = true.
Proof.
  unfold wf_rule. intros H. apply andb_true_iff in H as [_ H].
  destruct rule; try discriminate.
  unfold rule_exprs, field. simpl.
  destruct (assoc "expr" fields) as [[]|]; try discriminate.
  simpl. split; [reflexivity | exact H].
Qed.

Lemma rule_has_counter_wf (rule : json) :
  wf_rule rule = true ->
  rule_has_counter rule = Ok (has_counter_not_none rule).
Proof.
  intros H. destruct (wf_rule_exprs _ H) as [He Ho].
  unfold rule_has_counter. rewrite He, bind_ok. simpl py_iter. rewrite bind_ok.
  apply rule_has_counter_loop_objects; exact Ho.
Qed.

Lemma wf_rule_truthy (rule : json) : wf_rule rule = true -> truthy rule = true.
Proof.
  unfold wf_rule. intros H. repeat (apply andb_true_iff in H as [H _]).
  destruct rule; try discriminate. destruct fields; [discriminate | reflexivity].
Qed.

Lemma wf_rule_selector (rule : json) :
  wf_rule rule = true ->
  py_getitem rule "family" = Ok (field "family" rule)
  /\ py_getitem rule "table" = Ok (field "table" rule)
  /\ py_getitem rule "chain" = Ok (field "chain" rule)
  /\ py_getitem rule "handle" = Ok (field "handle" rule).
Proof.
  unfold wf_rule. intros H.
  apply andb_true_iff in H as [H _].
  apply andb_true_iff in H as [H Hh].
  apply andb_true_iff in H as [H Hc].
  apply andb_true_iff in H as [Hf Ht].
  repeat split; apply py_getitem_tagged; assumption.
Qed.

(** ** The loop of [search_rules_with_counter] *)

(** One step of the loop, by what the statement is. *)
Lemma search_loop_skip (o : json) (rest ret : list json) :
  is_object o = true ->
  truthy (field "rule" o) = false ->
  search_loop (o :: rest) ret = search_loop rest ret.
Proof.
  intros Ho Hf. simpl. rewrite (py_get_object _ _ Ho). simpl. rewrite Hf.
  reflexivity.
Qed.

Lemma search_loop_rule (o : json) (rest ret : list json) :
  is_object o = true ->
  wf_rule (field "rule" o) = true ->
  search_loop (o :: rest) ret =
  search_loop rest
    (if has_counter_not_none (field "rule" o)
     then ret ++ [rule_selector (field "rule" o)] else ret).
Proof.
  intros Ho Hr. simpl.
  rewrite (py_get_object _ _ Ho). simpl. rewrite (wf_rule_truthy _ Hr). simpl.
  rewrite (rule_has_counter_wf _ Hr). simpl.
  destruct (has_counter_not_none (field "rule" o)); simpl; [|reflexivity].
  destruct (wf_rule_selector _ Hr) as (Hf & Ht & Hc & Hh).
  rewrite Hf. simpl. rewrite Ht. simpl. rewrite Hc. simpl. rewrite Hh.
  reflexivity.
Qed.

(** The list built so far is only ever extended. *)
Lemma search_loop_acc (objects ret : list json) :
  search_loop objects ret = (r ← search_loop objects []; mret (ret ++ r)).
Proof.
  revert ret. induction objects as [|o rest IH]; intros ret.
  - simpl. unfold mret, result_ret. rewrite app_nil_r. reflexivity.
  - simpl.
    destruct (py_get o "rule") as [rule|e]; simpl; [|reflexivity].
    destruct (truthy rule); simpl; [|apply IH].
    destruct (rule_has_counter rule) as [[]|e]; simpl; [|apply IH|reflexivity].
    destruct (py_getitem rule "family") as [f|e]; simpl; [|reflexivity].
    destruct (py_getitem rule "table") as [t|e]; simpl; [|reflexivity].
    destruct (py_getitem rule "chain") as [c|e]; simpl; [|reflexivity].
    destruct (py_getitem rule "handle") as [h|e]; simpl; [|reflexivity].
    rewrite (IH (ret ++ _)), (IH [_]).
    destruct (search_loop rest []) as [r|e]; simpl; [|reflexivity].
    unfold mret, result_ret. rewrite <- app_assoc. reflexivity.
Qed.

(** The loop over a concatenation runs the loop over the first part, then
    over the second with what the first has built; an exception of the
    first part ends it. *)
Lemma search_loop_app (pre post ret : list json) :
  search_loop (pre ++ post) ret = (r ← search_loop pre ret; search_loop post r).
Proof.
  revert ret. induction pre as [|o rest IH]; intros ret; [reflexivity|].
  simpl.
  destruct (py_get o "rule") as [rule|e]; simpl; [|reflexivity].
  destruct (truthy rule); simpl; [|apply IH].
  destruct (rule_has_counter rule) as [[]|e]; simpl; [|apply IH|reflexivity].
  destruct (py_getitem rule "family") as [f|e]; simpl; [|reflexivity].
  destruct (py_getitem rule "table") as [t|e]; simpl; [|reflexivity].
  destruct (py_getitem rule "chain") as [c|e]; simpl; [|reflexivity].
  destruct (py_getitem rule "handle") as [h|e]; simpl; [|reflexivity].
  apply IH.
Qed.

(** On well-formed statements the loop returns the selectors of the rules
    that [rule_has_counter] accepts, in document order. *)
Lemma search_loop_wf (statements ret : list json) :
  forallb wf_statement statements = true ->
  search_loop statements ret =
  Ok (ret ++ find_matching_rules has_counter_not_none statements).
Proof.
  revert ret. induction statements as [|o rest IH]; intros ret H.
  - simpl. rewrite app_nil_r. reflexivity.
  - simpl in H. apply andb_true_iff in H as [Ho Hrest].
    unfold wf_statement in Ho. apply andb_true_iff in Ho as [Hobj Hrule].
    unfold find_matching_rules, rule_entries. simpl List.filter.
    destruct (tagged "rule" o) eqn:Ht; simpl in Hrule.
    + rewrite (search_loop_rule _ _ _ Hobj Hrule), (IH _ Hrest). simpl.
      destruct (has_counter_not_none (field "rule" o)); simpl;
        [rewrite <- app_assoc|]; reflexivity.
    + rewrite search_loop_skip, (IH _ Hrest); [reflexivity | exact Hobj |].
      rewrite (not_tagged_field _ _ Ht). reflexivity.
Qed.

Lemma search_ruleset_document (statements : list json) :
  search_rules_with_counter (ruleset_document statements) =
  search_loop statements [].
Proof. reflexivity. Qed.

Lemma search_rules_with_counter_wf (d : json) :
  wf_document d = true ->
  search_rules_with_counter d =
  Ok (find_matching_rules has_counter_not_none (command_entries d)).
Proof.
  unfold wf_document, search_rules_with_counter, command_entries, field.
  destruct d; try discriminate. simpl.
  destruct (assoc "nftables" fields) as [[]|]; try discriminate.
  intros H. simpl. apply (search_loop_wf _ [] H).
Qed.

(** Where every counter entry carries a value, the search returns the
    selectors of the rules with an entry tagged "counter". *)
Lemma search_finds_rules_with_stated_counter (d : json) :
  wf_document d = true ->
  counters_stated d = true ->
  search_rules_with_counter d =
  Ok (find_matching_rules has_counter (command_entries d)).
Proof.
  intros Hwf Hst. rewrite (search_rules_with_counter_wf _ Hwf).
  unfold find_matching_rules, counters_stated, command_entries in *.
  f_equal. f_equal.
  induction (rule_entries
               match field "nftables" d with
               | JArray entries => entries
               | _ => []
               end) as [|r rest IH]; [reflexivity|].
  simpl in Hst. apply andb_true_iff in Hst as [Hr Hrest]. simpl.
  assert (E : has_counter_not_none r = has_counter r).
  { unfold has_counter_not_none, has_counter.
    induction (rule_exprs r) as [|e es IHe]; [reflexivity|].
    simpl in Hr. apply andb_true_iff in Hr as [He Hes]. simpl.
    rewrite (IHe Hes). unfold counter_not_none.
    destruct (tagged "counter" e); simpl in *; [rewrite He|]; reflexivity. }
  rewrite E, (IH Hrest). reflexivity.
Qed.

(** ** The construction of the command *)

Lemma append_deletes_map (entries infos : list json) :
  append_deletes entries infos = entries ++ map delete_entry infos.
Proof.
  revert entries. induction infos as [|i rest IH]; intros entries; simpl.
  - rewrite app_nil_r. reflexivity.
  - rewrite IH, <- app_assoc. reflexivity.
Qed.

Lemma build_delete_command_entries (infos : list json) :
  build_delete_command infos =
  JObject [("nftables", JArray (metainfo_entry :: map delete_entry infos))].
Proof. unfold build_delete_command. rewrite append_deletes_map. reflexivity. Qed.

Lemma delete_entries_keep_selectors (infos : list json) :
  map (field "delete") (tl (command_entries (build_delete_command infos))) = infos.
Proof.
  rewrite build_delete_command_entries. simpl.
  induction infos as [|i rest IH]; simpl; [reflexivity | rewrite IH; reflexivity].
Qed.

(** ** Skipped statements *)

Lemma search_skips_falsy_rule (pre post : list json) (o : json) :
  is_object o = true ->
  truthy (field "rule" o) = false ->
  search_rules_with_counter (ruleset_document (pre ++ o :: post)) =
  search_rules_with_counter (ruleset_document (pre ++ post)).
Proof.
  intros Ho Hf. rewrite !search_ruleset_document, !search_loop_app.
  destruct (search_loop pre []) as [r|e]; [|reflexivity].
  rewrite !bind_ok. apply search_loop_skip; assumption.
Qed.

(** ** The claims about [nft-delete-rule.py] *)

(** C1. The claim: for every RulesetDocument, the search returns exactly
    the selectors of the statements tagged "rule" whose expr sequence has
    an entry tagged "counter", in document order.  The code misses a rule
    whose counter entry carries the value [None]: on the listing of the
    script's own ruleset with the counter listed as [{"counter": null}],
    a well-formed document, [search_rules_with_counter] returns the empty
    list, where the claim asks for the selector of the rule with
    handle 3. *)
Theorem search_misses_rule_with_null_counter :
  wf_document kernel_ruleset_stateless = true
  /\ search_rules_with_counter kernel_ruleset_stateless = Ok []
  /\ find_matching_rules has_counter (command_entries kernel_ruleset_stateless)
     = [inet_selector (JInt 3)].
Proof. repeat split. Qed.

(** C2. The claim: [rule_has_counter] returns true on every rule whose
    expr sequence has an entry tagged "counter", whatever the value under
    the tag, also [None].  On the second rule of the script's own
    [NFTABLES_RULESET_JSON], whose expr sequence holds
    [{ "counter": null }], the code returns [False]. *)
Theorem rule_has_counter_false_on_null_counter :
  has_counter literal_rule_tcp22 = true
  /\ rule_has_counter literal_rule_tcp22 = Ok false.
Proof. split; reflexivity. Qed.

(** C3. For every sequence of selectors, also the empty one, the command
    holds after its metainfo entry one deletion directive per selector:
    the directive of a selector is the dict that wraps it under
    ["delete"], as many directives as selectors, in the order of the
    selectors; looking up ["delete"] in each directive gives the selector
    back, with its family, table, chain and handle as they were, so that
    the directives read back are the input sequence. *)
Theorem build_delete_command_round_trip (infos : list json) :
  tl (command_entries (build_delete_command infos))
  = map (fun selector => JObject [("delete", selector)]) infos
  /\ length (tl (command_entries (build_delete_command infos))) = length infos
  /\ mapM (fun directive => py_getitem directive "delete")
          (tl (command_entries (build_delete_command infos)))
     = Ok infos
  /\ forall (i : nat) (directive : json),
       tl (command_entries (build_delete_command infos)) !! i = Some directive ->
       exists selector : json,
         infos !! i = Some selector
         /\ py_getitem directive "delete" = Ok selector
         /\ Forall (fun k => field k (field "delete" directive) = field k selector)
                   ["family"; "table"; "chain"; "handle"].
Proof.
  rewrite build_delete_command_entries. simpl.
  split; [reflexivity|]. split; [apply length_map|]. split.
  - induction infos as [|x rest IH]; [reflexivity|].
    simpl. rewrite IH. reflexivity.
  - intros i directive Hi. rewrite list_lookup_fmap in Hi.
    destruct (infos !! i) as [selector|]; simpl in Hi; [|discriminate].
    inversion Hi; subst. exists selector.
    split; [reflexivity|]. split; [reflexivity|].
    repeat constructor.
Qed.

(** C4. For every sequence of selectors, the command built by [main]
    has the metainfo entry, carrying [json_schema_version] 1, as its
    first entry, followed by one entry per selector; for the empty
    sequence the command holds the metainfo entry and nothing else. *)
Theorem metainfo_entry_first (infos : list json) :
  command_entries (build_delete_command infos)
  = metainfo_entry :: map delete_entry infos
  /\ length (command_entries (build_delete_command infos)) = S (length infos)
  /\ field "json_schema_version" (field "metainfo" metainfo_entry) = JInt 1
  /\ build_delete_command [] = JObject [("nftables", JArray [metainfo_entry])].
Proof.
  rewrite build_delete_command_entries. simpl.
  rewrite length_map. repeat split.
Qed.

(** C5. On a well-formed RulesetDocument (every statement tagged "rule"
    carries family, table, chain, handle and an expr sequence of tagged
    entries) the search followed by the construction of the command
    raises nothing: the search returns a list of selectors and the
    pipeline returns the command built from it. *)
Theorem pipeline_total (d : json) :
  wf_document d = true ->
  exists infos : list json,
    search_rules_with_counter d = Ok infos
    /\ pipeline d = Ok (build_delete_command infos).
Proof.
  intros H. eexists. split.
  - apply search_rules_with_counter_wf; exact H.
  - unfold pipeline. rewrite (search_rules_with_counter_wf _ H). reflexivity.
Qed.

Lemma pipeline_total_witness :
  exists infos : list json,
    search_rules_with_counter kernel_ruleset = Ok infos
    /\ pipeline kernel_ruleset = Ok (build_delete_command infos).
Proof. apply (pipeline_total kernel_ruleset). reflexivity. Defined.

(** C6. A statement that is not tagged "rule" is skipped without error
    and adds nothing: the search gives the same result, selectors or
    exception, with the statement and without it.  A document whose
    statements are all of that kind gives the empty sequence. *)
Theorem skips_statements_not_tagged_rule (pre post others : list json) (o : json) :
  is_object o = true ->
  tagged "rule" o = false ->
  forallb (fun x => is_object x && negb (tagged "rule" x)) others = true ->
  search_rules_with_counter (ruleset_document (pre ++ o :: post))
  = search_rules_with_counter (ruleset_document (pre ++ post))
  /\ search_rules_with_counter (ruleset_document others) = Ok [].
Proof.
  intros Ho Ht Hall. split.
  - apply search_skips_falsy_rule; [exact Ho|].
    rewrite (not_tagged_field _ _ Ht). reflexivity.
  - rewrite search_ruleset_document.
    induction others as [|x rest IH]; [reflexivity|].
    simpl in Hall. apply andb_true_iff in Hall as [Hx Hrest].
    apply andb_true_iff in Hx as [Hobj Hnot]. apply negb_true_iff in Hnot.
    rewrite search_loop_skip; [apply IH; exact Hrest | exact Hobj |].
    rewrite (not_tagged_field _ _ Hnot). reflexivity.
Qed.

Lemma skips_statements_not_tagged_rule_witness :
  search_rules_with_counter
    (ruleset_document
       ([listed_metainfo; listed_rule 3 [counter_of 0 0; accept]]
        ++ listed_chain :: [listed_rule 4 [counter_of 7 420]]))
  = search_rules_with_counter
      (ruleset_document
         ([listed_metainfo; listed_rule 3 [counter_of 0 0; accept]]
          ++ [listed_rule 4 [counter_of 7 420]]))
  /\ search_rules_with_counter
       (ruleset_document [listed_metainfo; listed_table; listed_chain]) = Ok [].
Proof.
  apply (skips_statements_not_tagged_rule
           [listed_metainfo; listed_rule 3 [counter_of 0 0; accept]]
           [listed_rule 4 [counter_of 7 420]]
           [listed_metainfo; listed_table; listed_chain]
           listed_chain); reflexivity.
Defined.

(** C9. A statement tagged "rule" whose payload is falsy (an empty
    object, [None], ...) is skipped like a statement that is no rule:
    the search gives the same result with the statement and without
    it. *)
Theorem skips_falsy_rule_payload (pre post : list json) (o : json) :
  tagged "rule" o = true ->
  truthy (field "rule" o) = false ->
  search_rules_with_counter (ruleset_document (pre ++ o :: post))
  = search_rules_with_counter (ruleset_document (pre ++ post)).
Proof.
  intros Ht Hf. apply search_skips_falsy_rule; [|exact Hf].
  apply (tagged_is_object _ _ Ht).
Qed.

Lemma skips_falsy_rule_payload_witness :
  search_rules_with_counter
    (ruleset_document
       ([listed_rule 3 [counter_of 0 0; accept]]
        ++ JObject [("rule", JObject [])] :: [listed_rule 4 [counter_of 7 420]]))
  = search_rules_with_counter
      (ruleset_document
         ([listed_rule 3 [counter_of 0 0; accept]]
          ++ [listed_rule 4 [counter_of 7 420]])).
Proof.
  apply (skips_falsy_rule_payload
           [listed_rule 3 [counter_of 0 0; accept]]
           [listed_rule 4 [counter_of 7 420]]
           (JObject [("rule", JObject [])])); reflexivity.
Defined.

(** ** The claims about [nft-read-counters-and-quotas.py] *)

Lemma py_contains_object (o : json) (k : string) :
  is_object o = true -> py_contains o k = Ok (tagged k o).
Proof. destruct o; simpl; intros H; try discriminate; reflexivity. Qed.

Lemma find_objects_loop_objects (entries : list json) (type : string) :
  forallb is_object entries = true ->
  find_objects_loop entries type = Ok (payloads type entries).
Proof.
  unfold payloads.
  induction entries as [|o rest IH]; simpl; [reflexivity|].
  intros H. apply andb_true_iff in H as [Ho Hrest].
  rewrite (py_contains_object _ _ Ho). simpl.
  destruct (tagged type o) eqn:Ht; simpl.
  - rewrite (py_getitem_tagged _ _ Ht). simpl.
    rewrite (IH Hrest). reflexivity.
  - apply IH; exact Hrest.
Qed.

(** C10. For a ruleset sequence of objects and a tag, [_find_objects]
    returns the payloads [o[type]] of the entries that contain the key,
    in the order of the entries; the entries without the key add
    nothing. *)
Theorem find_objects_payloads (entries : list json) (type : string) :
  forallb is_object entries = true ->
  _find_objects (JArray entries) type
  = Ok (map (field type) (List.filter (tagged type) entries)).
Proof. intros H. apply (find_objects_loop_objects _ _ H). Qed.

Lemma find_objects_payloads_witness :
  _find_objects (JArray (command_entries kernel_ruleset)) "rule"
  = Ok (map (field "rule")
          (List.filter (tagged "rule") (command_entries kernel_ruleset))).
Proof.
  apply (find_objects_payloads (command_entries kernel_ruleset) "rule").
  reflexivity.
Defined.

Lemma wf_listing_objects (entries : list json) :
  forallb wf_listing_entry entries = true ->
  forallb is_object entries = true
  /\ forallb wf_metainfo (payloads "metainfo" entries) = true.
Proof.
  unfold payloads.
  induction entries as [|o rest IH]; simpl; [split; reflexivity|].
  intros H. apply andb_true_iff in H as [Ho Hrest].
  destruct (IH Hrest) as [IHo IHm].
  unfold wf_listing_entry in Ho. apply andb_true_iff in Ho as [Hobj Hmeta].
  rewrite Hobj. split; [exact IHo|].
  destruct (tagged "metainfo" o); simpl in *; [|exact IHm].
  rewrite Hmeta. exact IHm.
Qed.

(** On metainfo payloads with a numeric version the loop raises nothing
    and prints one warning per payload whose version is above 1. *)
Lemma check_schema_versions_wf (metainfos : list json) (printed : list string) :
  forallb wf_metainfo metainfos = true ->
  check_schema_versions metainfos printed
  = (printed ++ map (fun _ => schema_warning)
                    (List.filter schema_version_above_1 metainfos),
     Ok tt).
Proof.
  revert printed. induction metainfos as [|m rest IH]; intros printed H; simpl.
  - rewrite app_nil_r. reflexivity.
  - simpl in H. apply andb_true_iff in H as [Hm Hrest].
    unfold wf_metainfo in Hm. apply andb_true_iff in Hm as [Ht Hn].
    rewrite (py_getitem_tagged _ _ Ht). simpl.
    unfold schema_version_above_1.
    destruct (field "json_schema_version" m) as [| |z|f| | |];
      try discriminate; simpl.
    + destruct (1 <? z); rewrite (IH _ Hrest); simpl;
        [rewrite <- app_assoc|]; reflexivity.
    + destruct (PrimFloat.ltb PrimFloat.one f); rewrite (IH _ Hrest); simpl;
        [rewrite <- app_assoc|]; reflexivity.
Qed.

(** C7. When the library answers with status 0 and a listing in which a
    metainfo entry carries a [json_schema_version] above 1, [nft_cmd]
    prints the warning and returns the decoded ruleset: the call ends
    neither in an exit nor in an exception.  One warning is printed per
    metainfo entry with such a version. *)
Theorem higher_schema_version_warns_and_returns
    (json_loads : string -> result json) (output error cmd : string)
    (d : json) (entries : list json) :
  (0 < String.length output)%nat ->
  json_loads output = Ok d ->
  py_getitem d "nftables" = Ok (JArray entries) ->
  forallb wf_listing_entry entries = true ->
  existsb schema_version_above_1 (payloads "metainfo" entries) = true ->
  exists printed : list string,
    nft_cmd json_loads (0, output, error) cmd
    = (printed, Returned (JArray entries))
    /\ In schema_warning printed
    /\ printed = map (fun _ => schema_warning)
                     (List.filter schema_version_above_1
                                  (payloads "metainfo" entries)).
Proof.
  intros Hlen Hloads Hget Hwf Habove.
  destruct (wf_listing_objects _ Hwf) as [Hobj Hmeta].
  eexists. split; [|split; [|reflexivity]].
  - unfold nft_cmd. simpl negb. cbv iota.
    destruct (String.length output =? 0)%nat eqn:Hz.
    + apply Nat.eqb_eq in Hz. lia.
    + rewrite Hloads, bind_ok, Hget.
      unfold _find_objects. simpl py_iter. rewrite bind_ok.
      rewrite (find_objects_loop_objects _ _ Hobj).
      rewrite (check_schema_versions_wf _ [] Hmeta). reflexivity.
  - apply existsb_exists in Habove as (m & Hin & Hm).
    apply in_map_iff. exists m. split; [reflexivity|].
    apply filter_In. split; assumption.
Qed.

Lemma higher_schema_version_warns_and_returns_witness :
  exists printed : list string,
    nft_cmd (fun _ => Ok listing_schema_2) (0, "{...}", "") "list counters"
    = (printed, Returned (JArray (command_entries listing_schema_2)))
    /\ In schema_warning printed
    /\ printed = map (fun _ => schema_warning)
                     (List.filter schema_version_above_1
                        (payloads "metainfo" (command_entries listing_schema_2))).
Proof.
  apply (higher_schema_version_warns_and_returns
           (fun _ => Ok listing_schema_2) "{...}" "" "list counters"
           listing_schema_2 (command_entries listing_schema_2));
    [simpl; lia | reflexivity | reflexivity | reflexivity | reflexivity].
Defined.

(** ** The search over the store *)

Lemma reads_ret {A : Type} (a : A) : reads (mret a : Store.M A).
Proof. intros h. reflexivity. Qed.

Lemma reads_raise {A : Type} (e : exn) : reads (Store.raise e : Store.M A).
Proof. intros h. reflexivity. Qed.

Lemma reads_bind {A B : Type} (m : Store.M A) (k : A -> Store.M B) :
  reads m -> (forall a, reads (k a)) -> reads (m ≫= k).
Proof.
  intros Hm Hk h. unfold mbind, Store.M_bind.
  specialize (Hm h). destruct (m h) as [[a|e] h1]; simpl in Hm; subst h1.
  - apply Hk.
  - reflexivity.
Qed.

Lemma reads_read (l : Store.loc) : reads (Store.read l).
Proof. intros h. unfold Store.read. destruct (h !! l); reflexivity. Qed.

Lemma reads_py_getitem (o : Store.value) (k : string) :
  reads (Store.py_getitem o k).
Proof.
  destruct o; simpl; try apply reads_raise.
  apply reads_bind; [apply reads_read|].
  intros [fields|items]; [|apply reads_raise].
  destruct (Store.assoc k fields); [apply reads_ret | apply reads_raise].
Qed.

Lemma reads_py_get (o : Store.value) (k : string) :
  reads (Store.py_get o k).
Proof.
  destruct o; simpl; try apply reads_raise.
  apply reads_bind; [apply reads_read|].
  intros [fields|items]; [|apply reads_raise].
  destruct (Store.assoc k fields); apply reads_ret.
Qed.

Lemma reads_truthy (x : Store.value) : reads (Store.truthy x).
Proof.
  destruct x; simpl; try apply reads_ret.
  apply reads_bind; [apply reads_read|].
  intros [fields|items]; apply reads_ret.
Qed.

Lemma reads_py_iter (o : Store.value) : reads (Store.py_iter o).
Proof.
  destruct o; simpl; try apply reads_raise; [apply reads_ret|].
  apply reads_bind; [apply reads_read|].
  intros [fields|items]; apply reads_ret.
Qed.

Lemma reads_rule_has_counter_loop (exprs : list Store.value) :
  reads (Store.rule_has_counter_loop exprs).
Proof.
  induction exprs as [|e rest IH]; simpl; [apply reads_ret|].
  apply reads_bind; [apply reads_py_get|].
  intros c. destruct (negb (Store.is_none c)); [apply reads_ret | exact IH].
Qed.

Lemma reads_rule_has_counter (rule : Store.value) :
  reads (Store.rule_has_counter rule).
Proof.
  unfold Store.rule_has_counter.
  apply reads_bind; [apply reads_py_getitem|]. intros e.
  apply reads_bind; [apply reads_py_iter|]. intros exprs.
  apply reads_rule_has_counter_loop.
Qed.

(** Running a reader in front of a continuation. *)
Lemma bind_reads {A B : Type} (m : Store.M A) (k : A -> Store.M B)
      (h : Store.store) :
  reads m ->
  (m ≫= k) h = match fst (m h) with
               | Ok a => k a h
               | Raise e => (Raise e, h)
               end.
Proof.
  intros Hm. unfold mbind, Store.M_bind. specialize (Hm h).
  destruct (m h) as [[a|e] h1]; simpl in *; subst h1; reflexivity.
Qed.

Lemma store_nothing_new (h : Store.store) (ret : Store.loc)
      (xs : list Store.value) :
  h !! ret = Some (Store.OList xs) ->
  exists new : list Store.object,
    h = <[ret := Store.OList
                   (xs ++ map Store.VRef (seq (length h) (length new)))]> (h ++ new)
    /\ Forall selector_object new
    /\ (rule_payloads_scalar h -> Forall scalar_selector_fields new).
Proof.
  intros H. exists []. split; [|split; [constructor | intros _; constructor]].
  simpl. rewrite !app_nil_r. symmetry. apply list_insert_id. exact H.
Qed.

Lemma py_append_fresh (h : Store.store) (ret : Store.loc)
      (xs : list Store.value) (d : Store.object) (x : Store.value) :
  h !! ret = Some (Store.OList xs) ->
  Store.py_append ret x (h ++ [d])
  = (Ok tt, <[ret := Store.OList (xs ++ [x])]> (h ++ [d])).
Proof.
  intros H. unfold Store.py_append, mbind, Store.M_bind, Store.read.
  rewrite (lookup_app_l_Some _ _ _ _ H). reflexivity.
Qed.

Lemma rule_payload_scalarb_sound (h : Store.store) :
  forallb (rule_payload_scalarb h) h = true -> rule_payloads_scalar h.
Proof.
  intros H l r fields fields' Hl Hr Hr' k v Hk Hv.
  assert (Ho : rule_payload_scalarb h (Store.ODict fields) = true).
  { apply (proj1 (forallb_forall _ _) H).
    apply list_elem_of_In, list_elem_of_lookup. exists l. exact Hl. }
  unfold rule_payload_scalarb in Ho. rewrite Hr, Hr' in Ho.
  pose proof (proj1 (forallb_forall _ _) Ho k Hk) as Hkv.
  simpl in Hkv. rewrite Hv in Hkv. exact Hkv.
Qed.

(** In a store of rulesets, what the loop copies from a rule is
    scalar. *)
Lemma rule_field_scalar (h : Store.store) (o rule : Store.value) (k : string)
      (v : Store.value) :
  rule_payloads_scalar h ->
  fst (Store.py_get o "rule" h) = Ok rule ->
  In k selector_keys ->
  fst (Store.py_getitem rule k h) = Ok v ->
  is_scalar v = true.
Proof.
  intros Hh Ho Hk Hv.
  destruct o as [| | | | |l]; simpl in Ho; try discriminate.
  unfold mbind, Store.M_bind, Store.read in Ho.
  destruct (h !! l) as [[fields|items]|] eqn:Hl; simpl in Ho; try discriminate.
  destruct (Store.assoc "rule" fields) as [w|] eqn:Hw; simpl in Ho;
    inversion Ho; subst rule; clear Ho; [|discriminate].
  destruct w as [| | | | |r]; simpl in Hv; try discriminate.
  unfold mbind, Store.M_bind, Store.read in Hv.
  destruct (h !! r) as [[fields'|items']|] eqn:Hr; simpl in Hv; try discriminate.
  destruct (Store.assoc k fields') as [x|] eqn:Hx; simpl in Hv; [|discriminate].
  inversion Hv; subst x.
  apply (Hh l r fields fields' Hl Hw Hr k v Hk Hx).
Qed.

(** Appending a selector keeps the store a store of rulesets. *)
Lemma rule_payloads_scalar_append (h : Store.store) (ret : Store.loc)
      (xs : list Store.value) (f t c hd : Store.value) :
  rule_payloads_scalar h ->
  scalar_selector_fields
    (Store.ODict [("family", f); ("table", t); ("chain", c); ("handle", hd)]) ->
  (ret < length h)%nat ->
  rule_payloads_scalar
    (<[ret := Store.OList xs]>
       (h ++ [Store.ODict [("family", f); ("table", t); ("chain", c); ("handle", hd)]])).
Proof.
  intros Hh Hd Hlt l r fields fields' Hl Hr Hr'.
  set (d := Store.ODict [("family", f); ("table", t); ("chain", c); ("handle", hd)]) in *.
  assert (Hlook : forall (i : nat) (g : list (string * Store.value)),
             <[ret := Store.OList xs]> (h ++ [d]) !! i = Some (Store.ODict g) ->
             h !! i = Some (Store.ODict g)
             \/ Store.ODict g = d).
  { intros i g Hi.
    destruct (decide (i = ret)) as [->|Hne].
    - rewrite list_lookup_insert_eq in Hi by (rewrite length_app; simpl; lia).
      discriminate.
    - rewrite list_lookup_insert_ne in Hi by congruence.
      destruct (decide (i < length h)%nat) as [Hi'|Hi'].
      + rewrite lookup_app_l in Hi by exact Hi'. left; exact Hi.
      + rewrite lookup_app_r in Hi by lia.
        destruct (i - length h)%nat; simpl in Hi; [|discriminate].
        inversion Hi. right; reflexivity. }
  destruct (Hlook _ _ Hl) as [Hl'|Hl'].
  - destruct (Hlook _ _ Hr') as [Hr''|Hr''].
    + apply (Hh l r fields fields' Hl' Hr Hr'').
    + rewrite Hr''. exact Hd.
  - unfold d in Hl'. inversion Hl'; subst fields. discriminate.
Qed.

(** The loop changes the store in one way only: the selectors it builds
    are new objects at the end of the store, and the list [ret] receives
    the references to them, in order.  In a store of rulesets the
    selectors hold scalars only. *)
Lemma search_loop_store (objects : list Store.value) (ret : Store.loc) :
  forall (h : Store.store) (xs : list Store.value),
    h !! ret = Some (Store.OList xs) ->
    exists new : list Store.object,
      snd (Store.search_loop objects ret h)
      = <[ret := Store.OList
                   (xs ++ map Store.VRef (seq (length h) (length new)))]> (h ++ new)
      /\ Forall selector_object new
      /\ (rule_payloads_scalar h -> Forall scalar_selector_fields new).
Proof.
  induction objects as [|o rest IH]; intros h xs Hret.
  - simpl. apply store_nothing_new; exact Hret.
  - simpl.
    rewrite bind_reads by apply reads_py_get.
    destruct (fst (Store.py_get o "rule" h)) as [rule|e] eqn:Eo;
      [|apply store_nothing_new; exact Hret].
    rewrite bind_reads by apply reads_truthy.
    destruct (fst (Store.truthy rule h)) as [t|e];
      [|apply store_nothing_new; exact Hret].
    destruct t; simpl; [|apply IH; exact Hret].
    rewrite bind_reads by apply reads_rule_has_counter.
    destruct (fst (Store.rule_has_counter rule h)) as [has|e];
      [|apply store_nothing_new; exact Hret].
    destruct has; simpl; [|apply IH; exact Hret].
    rewrite bind_reads by apply reads_py_getitem.
    destruct (fst (Store.py_getitem rule "family" h)) as [f|e] eqn:Ef;
      [|apply store_nothing_new; exact Hret].
    rewrite bind_reads by apply reads_py_getitem.
    destruct (fst (Store.py_getitem rule "table" h)) as [t|e] eqn:Et;
      [|apply store_nothing_new; exact Hret].
    rewrite bind_reads by apply reads_py_getitem.
    destruct (fst (Store.py_getitem rule "chain" h)) as [c|e] eqn:Ec;
      [|apply store_nothing_new; exact Hret].
    rewrite bind_reads by apply reads_py_getitem.
    destruct (fst (Store.py_getitem rule "handle" h)) as [hd|e] eqn:Eh;
      [|apply store_nothing_new; exact Hret].
    unfold mbind at 1, Store.M_bind at 1, Store.alloc.
    unfold mbind at 1, Store.M_bind at 1.
    rewrite (py_append_fresh _ _ _ _ _ Hret).
    set (d := Store.ODict [("family", f); ("table", t); ("chain", c); ("handle", hd)]).
    assert (Hlt : (ret < length h)%nat) by (apply lookup_lt_Some in Hret; exact Hret).
    assert (Hret' : <[ret := Store.OList (xs ++ [Store.VRef (length h)])]> (h ++ [d]) !! ret
                    = Some (Store.OList (xs ++ [Store.VRef (length h)]))).
    { apply list_lookup_insert_eq. rewrite length_app. simpl. lia. }
    assert (Hd : rule_payloads_scalar h -> scalar_selector_fields d).
    { intros Hh k v Hk Hv. simpl in Hk, Hv.
      destruct Hk as [<-|[<-|[<-|[<-|[]]]]]; simpl in Hv; inversion Hv; subst v.
      - apply (rule_field_scalar h o rule "family"); simpl; auto.
      - apply (rule_field_scalar h o rule "table"); simpl; auto.
      - apply (rule_field_scalar h o rule "chain"); simpl; auto.
      - apply (rule_field_scalar h o rule "handle"); simpl; auto. }
    destruct (IH _ _ Hret') as (new & Hnew & Hsel & Hscalar).
    exists (d :: new). split; [|split].
    + rewrite Hnew. rewrite length_insert, length_app. simpl length.
      rewrite insert_app_l by (rewrite length_insert, length_app; simpl; lia).
      rewrite list_insert_insert_eq.
      rewrite <- insert_app_l by (rewrite length_app; simpl; lia).
      rewrite <- !app_assoc. simpl.
      replace (length h + 1)%nat with (S (length h)) by lia.
      reflexivity.
    + constructor; [|exact Hsel]. exists f, t, c, hd. reflexivity.
    + intros Hh. constructor; [apply Hd; exact Hh|].
      apply Hscalar. apply rule_payloads_scalar_append; auto.
Qed.

(** The run of the search, step by step. *)
Lemma search_run (d : Store.value) (h : Store.store) :
  Store.search_rules_with_counter d h
  = match fst (Store.py_getitem d "nftables" (h ++ [Store.OList []])) with
    | Raise e => (Raise e, h ++ [Store.OList []])
    | Ok n =>
        match fst (Store.py_iter n (h ++ [Store.OList []])) with
        | Raise e => (Raise e, h ++ [Store.OList []])
        | Ok objects =>
            match Store.search_loop objects (length h) (h ++ [Store.OList []]) with
            | (Ok _, h2) => (Ok (Store.VRef (length h)), h2)
            | (Raise e, h2) => (Raise e, h2)
            end
        end
    end.
Proof.
  unfold Store.search_rules_with_counter.
  unfold mbind at 1, Store.M_bind at 1, Store.alloc.
  rewrite bind_reads by apply reads_py_getitem.
  destruct (fst (Store.py_getitem d "nftables" (h ++ [Store.OList []])));
    [|reflexivity].
  rewrite bind_reads by apply reads_py_iter.
  destruct (fst (Store.py_iter a (h ++ [Store.OList []]))); reflexivity.
Qed.

(** The store after the search is the store before it, followed by the
    list that is returned and by the selectors, one new object each. *)
Lemma search_store (d : Store.value) (h : Store.store) :
  exists new : list Store.object,
    snd (Store.search_rules_with_counter d h)
    = h ++ Store.OList (map Store.VRef (seq (S (length h)) (length new))) :: new
    /\ Forall selector_object new
    /\ (rule_payloads_scalar h -> Forall scalar_selector_fields new)
    /\ forall r, fst (Store.search_rules_with_counter d h) = Ok r ->
                 r = Store.VRef (length h).
Proof.
  rewrite search_run.
  set (h1 := h ++ [Store.OList []]).
  assert (Hret : h1 !! length h = Some (Store.OList [])).
  { unfold h1. rewrite lookup_app_r by lia. rewrite Nat.sub_diag. reflexivity. }
  assert (Hsame : h1 = h ++ Store.OList (map Store.VRef (seq (S (length h)) 0)) :: []).
  { reflexivity. }
  assert (Hh1 : rule_payloads_scalar h -> rule_payloads_scalar h1).
  { intros Hh l r fields fields' Hl Hr Hr'.
    assert (Hold : forall (i : nat) (g : list (string * Store.value)),
               h1 !! i = Some (Store.ODict g) -> h !! i = Some (Store.ODict g)).
    { intros i g Hi. unfold h1 in Hi.
      destruct (decide (i < length h)%nat) as [Hi'|Hi'].
      - rewrite lookup_app_l in Hi by exact Hi'. exact Hi.
      - rewrite lookup_app_r in Hi by lia.
        destruct (i - length h)%nat; simpl in Hi; discriminate. }
    apply (Hh l r fields fields' (Hold _ _ Hl) Hr (Hold _ _ Hr')). }
  destruct (fst (Store.py_getitem d "nftables" h1)) as [n|e];
    [|exists []; split; [exact Hsame | split; [constructor | split;
        [intros _; constructor | discriminate]]]].
  destruct (fst (Store.py_iter n h1)) as [objects|e];
    [|exists []; split; [exact Hsame | split; [constructor | split;
        [intros _; constructor | discriminate]]]].
  destruct (search_loop_store objects (length h) h1 [] Hret)
    as (new & Hnew & Hsel & Hscalar).
  exists new.
  assert (Hshape :
    <[length h := Store.OList ([] ++ map Store.VRef (seq (length h1) (length new)))]>
      (h1 ++ new)
    = h ++ Store.OList (map Store.VRef (seq (S (length h)) (length new))) :: new).
  { unfold h1. rewrite length_app. simpl length.
    replace (length h + 1)%nat with (S (length h)) by lia.
    rewrite <- app_assoc. rewrite insert_app_r_alt by lia.
    rewrite Nat.sub_diag. reflexivity. }
  pose proof (eq_trans Hnew Hshape) as Hnew'. clear Hnew Hshape.
  destruct (Store.search_loop objects (length h) h1) as [[u|e] h2]; simpl in *.
  - split; [exact Hnew' | split; [exact Hsel | split; [auto|]]].
    intros r Hr. inversion Hr. reflexivity.
  - split; [exact Hnew' | split; [exact Hsel | split; [auto | discriminate]]].
Qed.

Lemma kernel_store_scalar : rule_payloads_scalar kernel_store.
Proof. apply rule_payload_scalarb_sound. reflexivity. Qed.

(** C8. The search changes no object of the store it is given: every
    object that was there is there unchanged afterwards, whether the
    search returns or raises.  What it returns is a reference to a new
    list, and the selectors in that list are new objects too, each at a
    location of its own that did not exist before the call.  In a store
    of rulesets (family, table, chain and handle of a rule are scalars) a selector
    holds scalars only, so that it shares nothing with the input. *)
Theorem search_leaves_document_untouched (d : Store.value) (h : Store.store) :
  (forall (l : Store.loc) (o : Store.object),
      h !! l = Some o ->
      snd (Store.search_rules_with_counter d h) !! l = Some o)
  /\ (forall r : Store.value,
         fst (Store.search_rules_with_counter d h) = Ok r ->
         exists sels : list Store.loc,
           r = Store.VRef (length h)
           /\ snd (Store.search_rules_with_counter d h) !! length h
              = Some (Store.OList (map Store.VRef sels))
           /\ NoDup sels
           /\ Forall (fun s =>
                        (length h < s)%nat
                        /\ exists o : Store.object,
                             snd (Store.search_rules_with_counter d h) !! s = Some o
                             /\ selector_object o
                             /\ (rule_payloads_scalar h ->
                                 scalar_selector_fields o)) sels).
Proof.
  destruct (search_store d h) as (new & Hnew & Hsel & Hscalar & Hres).
  split.
  - intros l o Hl. rewrite Hnew. apply lookup_app_l_Some. exact Hl.
  - intros r Hr. exists (seq (S (length h)) (length new)).
    split; [apply Hres; exact Hr|].
    split; [|split].
    + rewrite Hnew. apply list_lookup_middle. reflexivity.
    + apply NoDup_ListNoDup, seq_NoDup.
    + apply Forall_forall. intros s Hs.
      apply list_elem_of_In, in_seq in Hs.
      split; [lia|].
      destruct (lookup_lt_is_Some_2 new (s - S (length h))) as [o Ho]; [lia|].
      assert (Hin : o ∈ new).
      { apply list_elem_of_lookup. exists (s - S (length h))%nat. exact Ho. }
      exists o. split; [|split].
      * rewrite Hnew. rewrite lookup_app_r by lia.
        replace (s - length h)%nat with (S (s - S (length h))) by lia.
        exact Ho.
      * apply (proj1 (Forall_forall _ _) Hsel _ Hin).
      * intros Hh. apply (proj1 (Forall_forall _ _) (Hscalar Hh) _ Hin).
Qed.

Lemma search_leaves_document_untouched_witness :
  snd (Store.search_rules_with_counter (Store.VRef 0) kernel_store) !! 5%nat
  = Some (Store.ODict [("family", Store.VStr "inet");
                       ("table", Store.VStr "mytable");
                       ("chain", Store.VStr "mychain");
                       ("handle", Store.VInt 3);
                       ("expr", Store.VRef 9)])
  /\ exists sels : list Store.loc,
       Store.VRef 14 = Store.VRef (length kernel_store)
       /\ snd (Store.search_rules_with_counter (Store.VRef 0) kernel_store)
            !! length kernel_store
          = Some (Store.OList (map Store.VRef sels))
       /\ NoDup sels
       /\ Forall (fun s =>
                    (length kernel_store < s)%nat
                    /\ exists o : Store.object,
                         snd (Store.search_rules_with_counter (Store.VRef 0) kernel_store)
                           !! s = Some o
                         /\ selector_object o
                         /\ (rule_payloads_scalar kernel_store ->
                             scalar_selector_fields o)) sels.
Proof.
  destruct (search_leaves_document_untouched (Store.VRef 0) kernel_store)
    as [Hkept Hnew].
  split.
  - apply Hkept. reflexivity.
  - apply (Hnew (Store.VRef 14)). reflexivity.
Defined.

(** ** The search over the store computes the search over documents *)

Lemma keeps_refl (h : Store.store) : keeps h h.
Proof. intros l o H; exact H. Qed.

Lemma keeps_trans (h0 h1 h2 : Store.store) :
  keeps h0 h1 -> keeps h1 h2 -> keeps h0 h2.
Proof. intros H01 H12 l o H. apply H12, H01, H. Qed.

Lemma Forall2_impl_Forall {A B : Type} (R R' : A -> B -> Prop)
      (l : list A) (k : list B) :
  Forall (fun a => forall b, R a b -> R' a b) l ->
  Forall2 R l k -> Forall2 R' l k.
Proof.
  intros Hall H. induction H; constructor; inversion Hall; subst; auto.
Qed.

(** A document of [h0] is the same document in a store that keeps
    [h0]. *)
Lemma repr_keeps (h0 h : Store.store) (j : json) :
  keeps h0 h -> forall v, repr h0 j v -> repr h j v.
Proof.
  intros Hk. induction j as [| | | | |items IH|fields IH] using json_nested_ind;
    intros v Hv; inversion Hv; subst; try constructor.
  - apply (repr_array h l items vs); [apply Hk; assumption|].
    apply (Forall2_impl_Forall (repr h0)); assumption.
  - apply (repr_object h l fields kvs); [apply Hk; assumption|].
    eapply Forall2_impl_Forall; [|eassumption].
    eapply Forall_impl; [exact IH|].
    intros f Hf kv [Hkey Hval]. split; [exact Hkey | apply Hf; exact Hval].
Qed.

Lemma repr_assoc (h : Store.store) (k : string)
      (fields : list (string * json)) (kvs : list (string * Store.value)) :
  Forall2 (fun f kv => fst f = fst kv /\ repr h (snd f) (snd kv)) fields kvs ->
  match assoc k fields, Store.assoc k kvs with
  | Some j, Some v => repr h j v
  | None, None => True
  | _, _ => False
  end.
Proof.
  induction 1 as [|[k1 j] [k2 v] fields' kvs' [Hkey Hval] _ IH]; simpl; [exact I|].
  simpl in Hkey, Hval. subst k2.
  destruct (String.eqb k k1); [exact Hval | exact IH].
Qed.

Lemma read_keeps (h0 h : Store.store) (l : Store.loc) (o : Store.object) :
  keeps h0 h -> h0 !! l = Some o -> Store.read l h = (Ok o, h).
Proof. intros Hk Hl. unfold Store.read. rewrite (Hk _ _ Hl). reflexivity. Qed.

Lemma py_getitem_agree (h0 h : Store.store) (j : json) (v : Store.value)
      (k : string) :
  keeps h0 h -> repr h0 j v ->
  agree (repr h0) (py_getitem j k) (fst (Store.py_getitem v k h)).
Proof.
  intros Hk Hv. inversion Hv; subst; simpl; try reflexivity.
  - unfold mbind, Store.M_bind. rewrite (read_keeps _ _ _ _ Hk H). reflexivity.
  - unfold mbind, Store.M_bind. rewrite (read_keeps _ _ _ _ Hk H).
    pose proof (repr_assoc h0 k _ _ H0) as Ha.
    destruct (assoc k fields), (Store.assoc k kvs); simpl; tauto.
Qed.

Lemma py_get_agree (h0 h : Store.store) (j : json) (v : Store.value)
      (k : string) :
  keeps h0 h -> repr h0 j v ->
  agree (repr h0) (py_get j k) (fst (Store.py_get v k h)).
Proof.
  intros Hk Hv. inversion Hv; subst; simpl; try reflexivity.
  - unfold mbind, Store.M_bind. rewrite (read_keeps _ _ _ _ Hk H). reflexivity.
  - unfold mbind, Store.M_bind. rewrite (read_keeps _ _ _ _ Hk H).
    pose proof (repr_assoc h0 k _ _ H0) as Ha.
    destruct (assoc k fields), (Store.assoc k kvs); simpl; try tauto.
    constructor.
Qed.

Lemma truthy_agree (h0 h : Store.store) (j : json) (v : Store.value) :
  keeps h0 h -> repr h0 j v ->
  fst (Store.truthy v h) = Ok (truthy j).
Proof.
  intros Hk Hv. inversion Hv; subst; simpl; try reflexivity.
  - unfold mbind, Store.M_bind. rewrite (read_keeps _ _ _ _ Hk H).
    inversion H0; reflexivity.
  - unfold mbind, Store.M_bind. rewrite (read_keeps _ _ _ _ Hk H).
    inversion H0; reflexivity.
Qed.

Lemma is_none_agree (h : Store.store) (j : json) (v : Store.value) :
  repr h j v -> Store.is_none v = is_none j.
Proof. intros Hv. inversion Hv; reflexivity. Qed.

Lemma chars_repr (h : Store.store) (s : string) :
  Forall2 (repr h) (chars s) (Store.chars s).
Proof.
  unfold chars, Store.chars.
  induction (code_points s) as [|c l IH]; simpl; constructor;
    [constructor | assumption].
Qed.

Lemma py_iter_agree (h0 h : Store.store) (j : json) (v : Store.value) :
  keeps h0 h -> repr h0 j v ->
  agree (Forall2 (repr h0)) (py_iter j) (fst (Store.py_iter v h)).
Proof.
  intros Hk Hv. inversion Hv; subst; simpl; try reflexivity.
  - apply chars_repr.
  - unfold mbind, Store.M_bind. rewrite (read_keeps _ _ _ _ Hk H). exact H0.
  - unfold mbind, Store.M_bind. rewrite (read_keeps _ _ _ _ Hk H). simpl.
    clear Hv H.
    induction H0 as [|f kv ? ? [Hkey _] _ IH]; simpl; [constructor|].
    constructor; [|exact IH]. rewrite Hkey. constructor.
Qed.

Lemma rule_has_counter_loop_agree (h0 h : Store.store)
      (exprs : list json) (vs : list Store.value) :
  keeps h0 h -> Forall2 (repr h0) exprs vs ->
  fst (Store.rule_has_counter_loop vs h) = rule_has_counter_loop exprs.
Proof.
  intros Hk H. induction H as [|e v exprs' vs' Hev _ IH]; simpl; [reflexivity|].
  rewrite bind_reads by apply reads_py_get.
  pose proof (py_get_agree h0 h e v "counter" Hk Hev) as A.
  destruct (py_get e "counter") as [c|x],
           (fst (Store.py_get v "counter" h)) as [cv|x'];
    simpl in A; try contradiction; simpl.
  - rewrite (is_none_agree _ _ _ A).
    destruct (is_none c); simpl; [exact IH | reflexivity].
  - subst x'. reflexivity.
Qed.

Lemma rule_has_counter_agree (h0 h : Store.store) (rule : json)
      (v : Store.value) :
  keeps h0 h -> repr h0 rule v ->
  fst (Store.rule_has_counter v h) = rule_has_counter rule.
Proof.
  intros Hk Hv. unfold Store.rule_has_counter, rule_has_counter.
  rewrite bind_reads by apply reads_py_getitem.
  pose proof (py_getitem_agree h0 h rule v "expr" Hk Hv) as A.
  destruct (py_getitem rule "expr") as [e|x],
           (fst (Store.py_getitem v "expr" h)) as [ev|x'];
    simpl in A; try contradiction; simpl; [|subst x'; reflexivity].
  rewrite bind_reads by apply reads_py_iter.
  pose proof (py_iter_agree h0 h e ev Hk A) as B.
  destruct (py_iter e) as [exprs|x],
           (fst (Store.py_iter ev h)) as [vs|x'];
    simpl in B; try contradiction; simpl; [|subst x'; reflexivity].
  apply (rule_has_counter_loop_agree h0 h _ _ Hk B).
Qed.

(** The store after one selector has been appended. *)
Lemma appended_lookup_old (h : Store.store) (ret l : Store.loc)
      (x d o : Store.object) :
  h !! l = Some o -> l <> ret -> <[ret := x]> (h ++ [d]) !! l = Some o.
Proof.
  intros Hl Hne. rewrite list_lookup_insert_ne by congruence.
  apply lookup_app_l_Some. exact Hl.
Qed.

Lemma appended_lookup_new (h : Store.store) (ret : Store.loc)
      (x d : Store.object) :
  (ret < length h)%nat -> <[ret := x]> (h ++ [d]) !! length h = Some d.
Proof.
  intros Hlt. rewrite list_lookup_insert_ne by lia.
  apply list_lookup_middle. reflexivity.
Qed.

Lemma selector_repr_appended (h0 h : Store.store) (ret : Store.loc)
      (xs : list Store.value) (x d : Store.object) (sel : json)
      (v : Store.value) :
  h !! ret = Some (Store.OList xs) ->
  selector_repr h0 h sel v ->
  selector_repr h0 (<[ret := x]> (h ++ [d])) sel v.
Proof.
  intros Hret (s & f & t & c & hd & jf & jt & jc & jh & -> & Hs & -> & Hf).
  exists s, f, t, c, hd, jf, jt, jc, jh.
  split; [reflexivity|]. split; [|split; [reflexivity | exact Hf]].
  apply appended_lookup_old; [exact Hs|].
  intros ->. rewrite Hret in Hs. discriminate.
Qed.

Lemma alloc_append_step {A : Type} (h : Store.store) (ret : Store.loc)
      (xs : list Store.value) (d : Store.object) (k : Store.M A) :
  h !! ret = Some (Store.OList xs) ->
  (Store.alloc d ≫= fun d0 => Store.py_append ret (Store.VRef d0) ≫= fun _ => k) h
  = k (<[ret := Store.OList (xs ++ [Store.VRef (length h)])]> (h ++ [d])).
Proof.
  intros Hret. unfold mbind at 1, Store.M_bind at 1, Store.alloc.
  unfold mbind at 1, Store.M_bind at 1.
  rewrite (py_append_fresh _ _ _ _ _ Hret). reflexivity.
Qed.

(** The loop over the store computes the loop over documents: the same
    exception, or the list [ret] holding the selectors of the pure
    result; and the store keeps the objects of [h0]. *)
Lemma search_loop_refines (h0 : Store.store) (objects : list json)
      (vs : list Store.value) :
  Forall2 (repr h0) objects vs ->
  forall (h : Store.store) (ret : Store.loc) (retj : list json)
         (xs : list Store.value),
    keeps h0 h ->
    (length h0 <= ret)%nat ->
    h !! ret = Some (Store.OList xs) ->
    Forall2 (selector_repr h0 h) retj xs ->
    keeps h0 (snd (Store.search_loop vs ret h))
    /\ agree (fun sels _ =>
                exists xs' : list Store.value,
                  snd (Store.search_loop vs ret h) !! ret = Some (Store.OList xs')
                  /\ Forall2 (selector_repr h0 (snd (Store.search_loop vs ret h)))
                             sels xs')
             (search_loop objects retj)
             (fst (Store.search_loop vs ret h)).
Proof.
  induction 1 as [|o v objects' vs' Hov _ IH]; intros h ret retj xs Hk Hge Hret Hsel.
  - simpl. split; [exact Hk|]. exists xs. split; assumption.
  - simpl.
    rewrite bind_reads by apply reads_py_get.
    pose proof (py_get_agree h0 h o v "rule" Hk Hov) as A.
    destruct (py_get o "rule") as [rule|x],
             (fst (Store.py_get v "rule" h)) as [rv|x'];
      simpl in A; try contradiction; simpl;
      [|subst x'; split; [exact Hk | reflexivity]].
    rewrite bind_reads by apply reads_truthy.
    rewrite (truthy_agree h0 h rule rv Hk A).
    destruct (truthy rule); simpl; [|apply (IH h ret retj xs); assumption].
    rewrite bind_reads by apply reads_rule_has_counter.
    rewrite (rule_has_counter_agree h0 h rule rv Hk A).
    destruct (rule_has_counter rule) as [[]|x]; simpl;
      [|apply (IH h ret retj xs); assumption | split; [exact Hk | reflexivity]].
    rewrite bind_reads by apply reads_py_getitem.
    pose proof (py_getitem_agree h0 h rule rv "family" Hk A) as Af.
    destruct (py_getitem rule "family") as [jf|x],
             (fst (Store.py_getitem rv "family" h)) as [f|x'];
      simpl in Af; try contradiction; simpl;
      [|subst x'; split; [exact Hk | reflexivity]].
    rewrite bind_reads by apply reads_py_getitem.
    pose proof (py_getitem_agree h0 h rule rv "table" Hk A) as At.
    destruct (py_getitem rule "table") as [jt|x],
             (fst (Store.py_getitem rv "table" h)) as [t|x'];
      simpl in At; try contradiction; simpl;
      [|subst x'; split; [exact Hk | reflexivity]].
    rewrite bind_reads by apply reads_py_getitem.
    pose proof (py_getitem_agree h0 h rule rv "chain" Hk A) as Ac.
    destruct (py_getitem rule "chain") as [jc|x],
             (fst (Store.py_getitem rv "chain" h)) as [c|x'];
      simpl in Ac; try contradiction; simpl;
      [|subst x'; split; [exact Hk | reflexivity]].
    rewrite bind_reads by apply reads_py_getitem.
    pose proof (py_getitem_agree h0 h rule rv "handle" Hk A) as Ah.
    destruct (py_getitem rule "handle") as [jh|x],
             (fst (Store.py_getitem rv "handle" h)) as [hd|x'];
      simpl in Ah; try contradiction; simpl;
      [|subst x'; split; [exact Hk | reflexivity]].
    rewrite (alloc_append_step _ _ _ _ _ Hret).
    set (d := Store.ODict [("family", f); ("table", t); ("chain", c); ("handle", hd)]).
    set (x := Store.OList (xs ++ [Store.VRef (length h)])).
    assert (Hlt : (ret < length h)%nat) by (apply lookup_lt_Some in Hret; exact Hret).
    apply (IH (<[ret := x]> (h ++ [d])) ret
              (retj ++ [selector_dict jf jt jc jh])
              (xs ++ [Store.VRef (length h)])).
    + intros l o' Hl. apply appended_lookup_old; [apply Hk; exact Hl|].
      apply lookup_lt_Some in Hl. lia.
    + exact Hge.
    + apply list_lookup_insert_eq. rewrite length_app. simpl. lia.
    + apply Forall2_app.
      * eapply Forall2_impl; [exact Hsel|].
        intros sel w Hw. apply (selector_repr_appended h0 h ret xs x d sel w Hret Hw).
      * constructor; [|constructor].
        exists (length h), f, t, c, hd, jf, jt, jc, jh.
        split; [reflexivity|]. split; [apply appended_lookup_new; exact Hlt|].
        split; [reflexivity|]. repeat split; assumption.
Qed.

Lemma selector_repr_repr (h0 h : Store.store) (sel : json) (x : Store.value) :
  keeps h0 h -> selector_repr h0 h sel x -> repr h sel x.
Proof.
  intros Hk (s & f & t & c & hd & jf & jt & jc & jh & -> & Hs & -> & Hf & Ht & Hc & Hh).
  unfold selector_dict. eapply repr_object; [exact Hs|].
  repeat constructor; simpl; apply (repr_keeps h0 h _ Hk); assumption.
Qed.

(** The search over the store computes [search_rules_with_counter]: on a
    value that is the document [j], it raises the exception that the
    search over [j] raises, or returns a value that is, in the store
    after the call, the list that the search over [j] returns. *)
Lemma store_search_refines (h0 : Store.store) (j : json) (d : Store.value) :
  repr h0 j d ->
  agree (fun sels r =>
           repr (snd (Store.search_rules_with_counter d h0)) (JArray sels) r)
        (search_rules_with_counter j)
        (fst (Store.search_rules_with_counter d h0)).
Proof.
  intros Hd. rewrite search_run. unfold search_rules_with_counter.
  set (h1 := h0 ++ [Store.OList []]).
  assert (Hk : keeps h0 h1).
  { intros l o Hl. apply lookup_app_l_Some. exact Hl. }
  assert (Hret : h1 !! length h0 = Some (Store.OList [])).
  { apply list_lookup_middle. reflexivity. }
  pose proof (py_getitem_agree h0 h1 j d "nftables" Hk Hd) as A.
  destruct (py_getitem j "nftables") as [n|x],
           (fst (Store.py_getitem d "nftables" h1)) as [nv|x'];
    simpl in A; try contradiction; simpl; [|exact A].
  pose proof (py_iter_agree h0 h1 n nv Hk A) as B.
  destruct (py_iter n) as [objects|x],
           (fst (Store.py_iter nv h1)) as [vs|x'];
    simpl in B; try contradiction; simpl; [|exact B].
  destruct (search_loop_refines h0 objects vs B h1 (length h0) [] []
              Hk (Nat.le_refl _) Hret (List.Forall2_nil _)) as [Hk2 C].
  destruct (Store.search_loop vs (length h0) h1) as [[u|e] h2]; simpl in *.
  - destruct (search_loop objects []) as [sels|x]; simpl in *; [|contradiction].
    destruct C as (xs' & Hxs & Hsels).
    eapply repr_array; [exact Hxs|].
    eapply Forall2_impl; [exact Hsels|].
    intros sel w. apply selector_repr_repr. exact Hk2.
  - destruct (search_loop objects []) as [sels|x]; simpl in *;
      [contradiction | exact C].
Qed.

Ltac solve_repr :=
  repeat first
    [ apply List.Forall2_nil
    | apply List.Forall2_cons
    | split; [reflexivity|]
    | apply repr_null | apply repr_bool | apply repr_int
    | apply repr_float | apply repr_string
    | eapply repr_array; [reflexivity|]
    | eapply repr_object; [reflexivity|] ].

Lemma kernel_store_repr :
  repr kernel_store kernel_store_document (Store.VRef 0).
Proof. unfold kernel_store_document, ruleset_document. solve_repr. Qed.

(** On the sample store the two searches give the selector of the rule
    with handle 3. *)
Lemma store_search_kernel_store :
  search_rules_with_counter kernel_store_document = Ok [inet_selector (JInt 3)]
  /\ fst (Store.search_rules_with_counter (Store.VRef 0) kernel_store)
     = Ok (Store.VRef 14)
  /\ repr (snd (Store.search_rules_with_counter (Store.VRef 0) kernel_store))
          (JArray [inet_selector (JInt 3)]) (Store.VRef 14).
Proof.
  split; [reflexivity|]. split; [reflexivity|].
  pose proof (store_search_refines kernel_store kernel_store_document
                (Store.VRef 0) kernel_store_repr) as H.
  exact H.
Qed.

(** * Further properties of the scripts *)

(** ** [search_rules_with_counter] *)

(** X1. The search over a document whose statements are a concatenation
    is the search over the first part followed by the search over the
    second: the selectors of the two parts, in that order, or the first
    exception raised. *)
Theorem search_of_concatenation (a b : list json) :
  search_rules_with_counter (ruleset_document (a ++ b))
  = (x ← search_rules_with_counter (ruleset_document a);
     y ← search_rules_with_counter (ruleset_document b);
     mret (x ++ y)).
Proof.
  rewrite !search_ruleset_document, search_loop_app.
  destruct (search_loop a []) as [x|e]; [|reflexivity].
  rewrite !bind_ok. apply search_loop_acc.
Qed.

Lemma search_loop_selectors (objects ret sels : list json) :
  search_loop objects ret = Ok sels ->
  exists new : list json,
    sels = ret ++ new
    /\ Forall is_selector new
    /\ (length new <= length objects)%nat.
Proof.
  revert ret. induction objects as [|o rest IH]; intros ret H; simpl in H.
  - inversion H. exists []. rewrite app_nil_r.
    split; [reflexivity | split; [constructor | simpl; lia]].
  - assert (Hskip : search_loop rest ret = Ok sels ->
            exists new, sels = ret ++ new /\ Forall is_selector new
                        /\ (length new <= length (o :: rest))%nat).
    { intros H'. destruct (IH _ H') as (new & -> & Hn & Hl).
      exists new. split; [reflexivity | split; [exact Hn | simpl; lia]]. }
    destruct (py_get o "rule") as [rule|e]; simpl in H; [|discriminate].
    destruct (truthy rule); simpl in H; [|apply Hskip; exact H].
    destruct (rule_has_counter rule) as [[]|e]; simpl in H;
      [|apply Hskip; exact H|discriminate].
    destruct (py_getitem rule "family") as [f|e]; simpl in H; [|discriminate].
    destruct (py_getitem rule "table") as [t|e]; simpl in H; [|discriminate].
    destruct (py_getitem rule "chain") as [c|e]; simpl in H; [|discriminate].
    destruct (py_getitem rule "handle") as [h|e]; simpl in H; [|discriminate].
    destruct (IH _ H) as (new & -> & Hn & Hl).
    exists (selector_dict f t c h :: new). split; [|split].
    + rewrite <- app_assoc. reflexivity.
    + constructor; [exists f, t, c, h; reflexivity | exact Hn].
    + simpl. lia.
Qed.

(** X2. Whatever the document, what the search returns is a list of
    selectors, each a dict with exactly the keys family, table, chain and
    handle, in that order, and at most one selector per element of
    [data_structure["nftables"]]. *)
Theorem search_returns_selectors (d : json) (sels : list json) :
  search_rules_with_counter d = Ok sels ->
  Forall is_selector sels
  /\ exists objects : list json,
       (n ← py_getitem d "nftables"; py_iter n) = Ok objects
       /\ (length sels <= length objects)%nat.
Proof.
  unfold search_rules_with_counter. intros H.
  destruct (py_getitem d "nftables") as [n|e]; simpl in *; [|discriminate].
  destruct (py_iter n) as [objects|e]; simpl in *; [|discriminate].
  destruct (search_loop_selectors _ _ _ H) as (new & -> & Hn & Hl).
  split; [exact Hn|]. exists objects. split; [reflexivity | exact Hl].
Qed.

Lemma search_returns_selectors_witness :
  Forall is_selector [inet_selector (JInt 3)]
  /\ exists objects : list json,
       (n ← py_getitem kernel_ruleset "nftables"; py_iter n) = Ok objects
       /\ (length [inet_selector (JInt 3)] <= length objects)%nat.
Proof.
  apply (search_returns_selectors kernel_ruleset [inet_selector (JInt 3)]).
  reflexivity.
Defined.

Lemma py_getitem_not_tagged (o : json) (k : string) :
  is_object o = true -> tagged k o = false -> py_getitem o k = Raise (KeyError k).
Proof.
  destruct o; simpl; try discriminate. intros _ H.
  apply bool_decide_eq_false in H.
  destruct (assoc k fields) as [v|]; [|reflexivity].
  exfalso. apply H. eexists; reflexivity.
Qed.

Lemma rule_has_counter_object (rule : json) (b : bool) :
  rule_has_counter rule = Ok b -> is_object rule = true /\ truthy rule = true.
Proof.
  unfold rule_has_counter. destruct rule; simpl; try discriminate.
  destruct fields; simpl; [discriminate|]. intros _. split; reflexivity.
Qed.

(** The search after a well-formed prefix. *)
Lemma search_after_wf_prefix (pre rest : list json) :
  forallb wf_statement pre = true ->
  search_rules_with_counter (ruleset_document (pre ++ rest))
  = search_loop rest (find_matching_rules has_counter_not_none pre).
Proof.
  intros Hpre. rewrite search_ruleset_document, search_loop_app.
  rewrite (search_loop_wf pre [] Hpre). reflexivity.
Qed.

(** X3. A rule that has a counter must carry family, table, chain and
    handle: after well-formed statements, the first of these keys that
    the rule lacks is raised as a [KeyError], and nothing is returned
    (the handle is there only when the library was asked for handles). *)
Theorem missing_selector_key_raises (pre post : list json) (o : json) (k : string) :
  forallb wf_statement pre = true ->
  is_object o = true ->
  rule_has_counter (field "rule" o) = Ok true ->
  first_missing (field "rule" o) = Some k ->
  search_rules_with_counter (ruleset_document (pre ++ o :: post))
  = Raise (KeyError k).
Proof.
  intros Hpre Ho Hhas Hk.
  rewrite (search_after_wf_prefix _ _ Hpre). simpl.
  rewrite (py_get_object _ _ Ho). simpl.
  destruct (rule_has_counter_object _ _ Hhas) as [Hobj Htruthy].
  rewrite Htruthy, Hhas. simpl.
  unfold first_missing in Hk. simpl in Hk.
  destruct (tagged "family" (field "rule" o)) eqn:Hf; simpl in Hk;
    [|inversion Hk; rewrite (py_getitem_not_tagged _ _ Hobj Hf); reflexivity].
  rewrite (py_getitem_tagged _ _ Hf). simpl.
  destruct (tagged "table" (field "rule" o)) eqn:Ht; simpl in Hk;
    [|inversion Hk; rewrite (py_getitem_not_tagged _ _ Hobj Ht); reflexivity].
  rewrite (py_getitem_tagged _ _ Ht). simpl.
  destruct (tagged "chain" (field "rule" o)) eqn:Hc; simpl in Hk;
    [|inversion Hk; rewrite (py_getitem_not_tagged _ _ Hobj Hc); reflexivity].
  rewrite (py_getitem_tagged _ _ Hc). simpl.
  destruct (tagged "handle" (field "rule" o)) eqn:Hh; simpl in Hk;
    [discriminate|].
  inversion Hk. rewrite (py_getitem_not_tagged _ _ Hobj Hh). reflexivity.
Qed.

Lemma missing_selector_key_raises_witness :
  search_rules_with_counter
    (ruleset_document
       ([listed_metainfo; listed_rule 2 [match_dport "udp" 53; accept]]
        ++ JObject [("rule",
             JObject [("family", JString "inet");
                      ("table", JString "mytable");
                      ("chain", JString "mychain");
                      ("expr", JArray [match_dport "tcp" 22; counter_of 0 0;
                                       accept])])]
        :: [listed_rule 4 [counter_of 1 60]]))
  = Raise (KeyError "handle").
Proof.
  apply (missing_selector_key_raises
           [listed_metainfo; listed_rule 2 [match_dport "udp" 53; accept]]
           [listed_rule 4 [counter_of 1 60]]); reflexivity.
Defined.

(** X4. A rule without a counter is skipped whatever else it carries:
    only its [expr] is read, so that family, table, chain and handle may
    be missing.  The search gives the same result with the statement and
    without it. *)
Theorem rule_without_counter_is_skipped (pre post : list json) (o : json) :
  is_object o = true ->
  rule_has_counter (field "rule" o) = Ok false ->
  search_rules_with_counter (ruleset_document (pre ++ o :: post))
  = search_rules_with_counter (ruleset_document (pre ++ post)).
Proof.
  intros Ho Hhas. rewrite !search_ruleset_document, !search_loop_app.
  destruct (search_loop pre []) as [r|e]; [|reflexivity].
  rewrite !bind_ok. simpl. rewrite (py_get_object _ _ Ho). simpl.
  destruct (rule_has_counter_object _ _ Hhas) as [_ Htruthy].
  rewrite Htruthy, Hhas. reflexivity.
Qed.

Lemma rule_without_counter_is_skipped_witness :
  search_rules_with_counter
    (ruleset_document
       ([listed_rule 3 [counter_of 0 0]]
        ++ JObject [("rule", JObject [("expr", JArray [accept])])]
        :: [listed_rule 4 [counter_of 1 60]]))
  = search_rules_with_counter
      (ruleset_document
         ([listed_rule 3 [counter_of 0 0]] ++ [listed_rule 4 [counter_of 1 60]])).
Proof.
  apply (rule_without_counter_is_skipped
           [listed_rule 3 [counter_of 0 0]] [listed_rule 4 [counter_of 1 60]]);
    reflexivity.
Defined.

Lemma rule_has_counter_loop_app (pre rest : list json) :
  forallb is_object pre = true ->
  existsb counter_not_none pre = false ->
  rule_has_counter_loop (pre ++ rest) = rule_has_counter_loop rest.
Proof.
  induction pre as [|e pre' IH]; simpl; [reflexivity|].
  intros Hobj Hnone. apply andb_true_iff in Hobj as [He Hobj].
  apply orb_false_iff in Hnone as [Hc Hnone].
  rewrite (py_get_object _ _ He). simpl.
  unfold counter_not_none in Hc.
  destruct (tagged "counter" e) eqn:Ht; simpl in Hc.
  - apply negb_false_iff in Hc. rewrite Hc. simpl. apply IH; assumption.
  - rewrite (not_tagged_field _ _ Ht). simpl. apply IH; assumption.
Qed.

(** X5. [rule_has_counter] examines the expressions in order and stops at
    the first counter: after expressions that are dicts without a
    counter, an expression with a counter gives [True] whatever follows
    it, an expression that is not a dict raises [AttributeError], and a
    dict without a counter hands over to the expressions after it. *)
Theorem rule_has_counter_first_decides (rule : json) (pre post : list json) (x : json) :
  py_getitem rule "expr" = Ok (JArray (pre ++ x :: post)) ->
  forallb is_object pre = true ->
  existsb counter_not_none pre = false ->
  rule_has_counter rule
  = if counter_not_none x then Ok true
    else if is_object x then rule_has_counter_loop post
    else Raise AttributeError.
Proof.
  intros Hexpr Hobj Hnone. unfold rule_has_counter. rewrite Hexpr. simpl.
  rewrite (rule_has_counter_loop_app _ _ Hobj Hnone). simpl.
  unfold counter_not_none.
  destruct (tagged "counter" x) eqn:Ht; simpl.
  - rewrite (py_get_object _ _ (tagged_is_object _ _ Ht)). simpl.
    rewrite (tagged_is_object _ _ Ht).
    destruct (is_none (field "counter" x)); reflexivity.
  - destruct (is_object x) eqn:Hx.
    + rewrite (py_get_object _ _ Hx). simpl.
      rewrite (not_tagged_field _ _ Ht). reflexivity.
    + destruct x; simpl in *; try reflexivity. discriminate.
Qed.

Lemma rule_has_counter_first_decides_witness :
  rule_has_counter
    (JObject [("expr", JArray ([match_dport "tcp" 22]
                               ++ counter_of 0 0 :: [JString "accept"]))])
  = if counter_not_none (counter_of 0 0) then Ok true
    else if is_object (counter_of 0 0)
         then rule_has_counter_loop [JString "accept"]
         else Raise AttributeError.
Proof.
  apply (rule_has_counter_first_decides
           (JObject [("expr", JArray ([match_dport "tcp" 22]
                                      ++ counter_of 0 0 :: [JString "accept"]))])
           [match_dport "tcp" 22] [JString "accept"] (counter_of 0 0));
    reflexivity.
Defined.

(** X6. A statement tagged "rule" whose payload is truthy and has no
    [expr] stops the search: [KeyError] when the payload is a dict,
    [TypeError] when it is anything else (a string, a number, a list). *)
Theorem rule_without_expr_raises (pre post : list json) (o : json) :
  forallb wf_statement pre = true ->
  is_object o = true ->
  truthy (field "rule" o) = true ->
  tagged "expr" (field "rule" o) = false ->
  search_rules_with_counter (ruleset_document (pre ++ o :: post))
  = Raise (if is_object (field "rule" o) then KeyError "expr" else TypeError).
Proof.
  intros Hpre Ho Htruthy Hexpr.
  rewrite (search_after_wf_prefix _ _ Hpre). simpl.
  rewrite (py_get_object _ _ Ho). simpl. rewrite Htruthy. simpl.
  unfold rule_has_counter.
  destruct (is_object (field "rule" o)) eqn:Hobj.
  - rewrite (py_getitem_not_tagged _ _ Hobj Hexpr). reflexivity.
  - destruct (field "rule" o); simpl in *; try reflexivity. discriminate.
Qed.

Lemma rule_without_expr_raises_witness :
  search_rules_with_counter
    (ruleset_document
       ([listed_rule 3 [counter_of 0 0]]
        ++ JObject [("rule", JObject [("family", JString "inet");
                                      ("handle", JInt 4)])]
        :: [listed_chain]))
  = Raise (if is_object (field "rule"
                           (JObject [("rule", JObject [("family", JString "inet");
                                                       ("handle", JInt 4)])]))
           then KeyError "expr" else TypeError).
Proof.
  apply (rule_without_expr_raises
           [listed_rule 3 [counter_of 0 0]] [listed_chain]); reflexivity.
Defined.

(** ** The command built by [main] *)

(** X7. Whatever the selectors, looking up ["delete"] in each entry of
    the command after the first gives the selectors back: the same
    values, as many, in the same order. *)
Theorem delete_lookup_round_trip (infos : list json) :
  mapM (fun entry => py_getitem entry "delete")
       (tl (command_entries (build_delete_command infos)))
  = Ok infos.
Proof.
  rewrite build_delete_command_entries. simpl.
  induction infos as [|i rest IH]; [reflexivity|].
  simpl. rewrite IH. reflexivity.
Qed.

(** X8. On a well-formed listing in which no rule has a counter, the
    pipeline still returns a command: the one that holds the metainfo
    entry and nothing else. *)
Theorem no_counter_gives_metainfo_only (d : json) :
  wf_document d = true ->
  forallb (fun rule => negb (has_counter_not_none rule))
          (rule_entries (command_entries d)) = true ->
  pipeline d = Ok (JObject [("nftables", JArray [metainfo_entry])]).
Proof.
  intros Hwf Hnone. unfold pipeline.
  rewrite (search_rules_with_counter_wf _ Hwf). simpl.
  unfold find_matching_rules.
  replace (List.filter has_counter_not_none (rule_entries (command_entries d)))
    with (@nil json); [reflexivity|].
  induction (rule_entries (command_entries d)) as [|r rest IH]; [reflexivity|].
  simpl in Hnone. apply andb_true_iff in Hnone as [Hr Hrest].
  apply negb_true_iff in Hr. simpl. rewrite Hr. apply IH; exact Hrest.
Qed.

Lemma no_counter_gives_metainfo_only_witness :
  pipeline (ruleset_document
              [listed_metainfo; listed_table; listed_chain;
               listed_rule 2 [match_dport "udp" 53; accept]])
  = Ok (JObject [("nftables", JArray [metainfo_entry])]).
Proof.
  apply (no_counter_gives_metainfo_only
           (ruleset_document
              [listed_metainfo; listed_table; listed_chain;
               listed_rule 2 [match_dport "udp" 53; accept]])); reflexivity.
Defined.

(** ** [_find_objects] *)

Lemma find_objects_loop_app (a b : list json) (type : string) :
  find_objects_loop (a ++ b) type
  = (x ← find_objects_loop a type;
     y ← find_objects_loop b type;
     mret (x ++ y)).
Proof.
  induction a as [|o rest IH]; simpl.
  - destruct (find_objects_loop b type); reflexivity.
  - destruct (py_contains o type) as [[]|e]; simpl; [| exact IH | reflexivity].
    destruct (py_getitem o type) as [v|e]; simpl; [|reflexivity].
    rewrite IH.
    destruct (find_objects_loop rest type) as [x|e]; simpl; [|reflexivity].
    destruct (find_objects_loop b type) as [y|e]; reflexivity.
Qed.

(** X9. [_find_objects] over a concatenation is [_find_objects] over the
    first part followed by [_find_objects] over the second: the payloads
    of the two parts, in that order, or the first exception raised. *)
Theorem find_objects_of_concatenation (a b : list json) (type : string) :
  _find_objects (JArray (a ++ b)) type
  = (x ← _find_objects (JArray a) type;
     y ← _find_objects (JArray b) type;
     mret (x ++ y)).
Proof. apply find_objects_loop_app. Qed.

(** X10. An entry of the ruleset that is not a dict is not always an
    error: after entries that are dicts, it is skipped when [type in o]
    is false for it (a string without the tag as a substring, a list
    without the tag as an element), and it raises [TypeError] otherwise
    (a string or a list that contains the tag, a number, [None]). *)
Theorem find_objects_entry_not_a_dict (pre post : list json) (x : json) (type : string) :
  forallb is_object pre = true ->
  is_object x = false ->
  _find_objects (JArray (pre ++ x :: post)) type
  = match py_contains x type with
    | Ok false => _find_objects (JArray (pre ++ post)) type
    | _ => Raise TypeError
    end.
Proof.
  intros Hpre Hx. unfold _find_objects. simpl py_iter. rewrite !bind_ok.
  rewrite !find_objects_loop_app.
  rewrite (find_objects_loop_objects _ _ Hpre). rewrite !bind_ok.
  simpl find_objects_loop.
  destruct x; simpl in *; try reflexivity; try discriminate.
  - destruct (bool_decide (is_Some (index 0 type s))); reflexivity.
  - destruct (existsb (eq_str type) items); reflexivity.
Qed.

Lemma find_objects_entry_not_a_dict_witness :
  _find_objects (JArray ([listed_metainfo] ++ JString "meta" :: [listed_table]))
                "metainfo"
  = match py_contains (JString "meta") "metainfo" with
    | Ok false => _find_objects (JArray ([listed_metainfo] ++ [listed_table]))
                                "metainfo"
    | _ => Raise TypeError
    end.
Proof.
  apply (find_objects_entry_not_a_dict
           [listed_metainfo] [listed_table] (JString "meta") "metainfo");
    reflexivity.
Defined.

(** ** [nft_cmd] *)

Lemma check_schema_versions_printed (metainfos : list json) (printed : list string) :
  exists new : list string,
    fst (check_schema_versions metainfos printed) = printed ++ new
    /\ Forall (fun line => line = schema_warning) new.
Proof.
  revert printed. induction metainfos as [|m rest IH]; intros printed; simpl.
  - exists []. rewrite app_nil_r. split; [reflexivity | constructor].
  - destruct (py_getitem m "json_schema_version" ≫= py_gt_1) as [[]|e]; simpl.
    + destruct (IH (printed ++ [schema_warning])) as (new & Hnew & Hall).
      exists (schema_warning :: new). rewrite Hnew, <- app_assoc.
      split; [reflexivity | constructor; [reflexivity | exact Hall]].
    + apply IH.
    + exists []. rewrite app_nil_r. split; [reflexivity | constructor].
Qed.

(** X11. [nft_cmd] ends the process in two cases only: with status 1
    when the library answers a status other than 0, after printing the
    command and the error text; with status 0 when the status is 0 and
    the output is empty, after printing an error line.  In every other
    case, and only then, it returns or raises. *)
Theorem nft_cmd_exit_status (loads : string -> result json)
        (rc : Z) (output error text : string) :
  match nft_cmd loads (rc, output, error) text with
  | (lines, Exited status) =>
      (rc <> 0 /\ status = 1
       /\ lines = [("ERROR: running cmd " ++ text)%string; error])
      \/ (rc = 0 /\ output = EmptyString /\ status = 0
          /\ lines = ["ERROR: no output from libnftables"])
  | (_, _) => rc = 0 /\ output <> EmptyString
  end.
Proof.
  unfold nft_cmd. destruct (rc =? 0) eqn:Hrc; simpl.
  - apply Z.eqb_eq in Hrc.
    destruct output as [|c s]; simpl; [right; auto|].
    destruct (loads (String c s) ≫= fun d => py_getitem d "nftables")
      as [ruleset|e]; [|split; [exact Hrc | discriminate]].
    destruct (_find_objects ruleset "metainfo") as [metainfos|e];
      [|split; [exact Hrc | discriminate]].
    destruct (check_schema_versions metainfos []) as [p [u|e]];
      split; first [exact Hrc | discriminate].
  - apply Z.eqb_neq in Hrc. left. auto.
Qed.

(** X12. When [nft_cmd] returns, what it returns is
    [json.loads(output)["nftables"]], unchanged; the status was 0, the
    output was not empty, and every line it printed is the schema
    warning. *)
Theorem nft_cmd_returns_decoded_ruleset (loads : string -> result json)
        (rc : Z) (output error text : string) (lines : list string) (r : json) :
  nft_cmd loads (rc, output, error) text = (lines, Returned r) ->
  rc = 0
  /\ output <> EmptyString
  /\ (d ← loads output; py_getitem d "nftables") = Ok r
  /\ Forall (fun line => line = schema_warning) lines.
Proof.
  unfold nft_cmd. destruct (rc =? 0) eqn:Hrc; simpl; [|discriminate].
  apply Z.eqb_eq in Hrc.
  destruct output as [|c s]; simpl; [discriminate|].
  destruct (loads (String c s) ≫= fun d => py_getitem d "nftables")
    as [ruleset|e] eqn:Hd; [|discriminate].
  destruct (_find_objects ruleset "metainfo") as [metainfos|e]; [|discriminate].
  destruct (check_schema_versions_printed metainfos []) as (new & Hnew & Hall).
  destruct (check_schema_versions metainfos []) as [p [u|e]]; [|discriminate].
  simpl in Hnew. subst p rc. intros H. inversion H; subst.
  split; [reflexivity|]. split; [discriminate|].
  split; [reflexivity | exact Hall].
Qed.

Lemma nft_cmd_returns_decoded_ruleset_witness :
  0 = 0
  /\ "{...}" <> EmptyString
  /\ (d ← (fun _ => Ok listing_schema_2) "{...}"; py_getitem d "nftables")
     = Ok (JArray (command_entries listing_schema_2))
  /\ Forall (fun line => line = schema_warning) [schema_warning].
Proof.
  apply (nft_cmd_returns_decoded_ruleset
           (fun _ => Ok listing_schema_2) 0 "{...}" "" "list counters").
  reflexivity.
Defined.

Lemma nft_cmd_after_decoding (loads : string -> result json)
      (output error text : string) (d : json) (entries : list json) :
  (0 < String.length output)%nat ->
  loads output = Ok d ->
  py_getitem d "nftables" = Ok (JArray entries) ->
  forallb is_object entries = true ->
  nft_cmd loads (0, output, error) text
  = match check_schema_versions (payloads "metainfo" entries) [] with
    | (lines, Raise e) => (lines, Raised e)
    | (lines, Ok _) => (lines, Returned (JArray entries))
    end.
Proof.
  intros Hlen Hloads Hget Hobj. unfold nft_cmd. simpl negb. cbv iota.
  destruct (String.length output =? 0)%nat eqn:Hz;
    [apply Nat.eqb_eq in Hz; lia|].
  rewrite Hloads, bind_ok, Hget.
  unfold _find_objects. simpl py_iter. rewrite bind_ok.
  rewrite (find_objects_loop_objects _ _ Hobj). reflexivity.
Qed.

(** X13. On a listing whose metainfo entries all carry a version of at
    most 1 (in particular on a listing without a metainfo entry),
    [nft_cmd] prints nothing and returns the decoded ruleset. *)
Theorem schema_version_at_most_1_prints_nothing
    (loads : string -> result json) (output error text : string)
    (d : json) (entries : list json) :
  (0 < String.length output)%nat ->
  loads output = Ok d ->
  py_getitem d "nftables" = Ok (JArray entries) ->
  forallb wf_listing_entry entries = true ->
  existsb schema_version_above_1 (payloads "metainfo" entries) = false ->
  nft_cmd loads (0, output, error) text = ([], Returned (JArray entries)).
Proof.
  intros Hlen Hloads Hget Hwf Hnone.
  destruct (wf_listing_objects _ Hwf) as [Hobj Hmeta].
  rewrite (nft_cmd_after_decoding _ _ _ _ _ _ Hlen Hloads Hget Hobj).
  rewrite (check_schema_versions_wf _ [] Hmeta). simpl.
  replace (List.filter schema_version_above_1 (payloads "metainfo" entries))
    with (@nil json); [reflexivity|].
  induction (payloads "metainfo" entries) as [|m rest IH]; [reflexivity|].
  simpl in Hnone. apply orb_false_iff in Hnone as [Hm Hrest].
  simpl in Hmeta. apply andb_true_iff in Hmeta as [_ Hmeta].
  simpl. rewrite Hm. apply IH; assumption.
Qed.

Lemma schema_version_at_most_1_prints_nothing_witness :
  nft_cmd (fun _ => Ok kernel_ruleset) (0, "{...}", "") "list ruleset"
  = ([], Returned (JArray (command_entries kernel_ruleset))).
Proof.
  apply (schema_version_at_most_1_prints_nothing
           (fun _ => Ok kernel_ruleset) "{...}" "" "list ruleset" kernel_ruleset
           (command_entries kernel_ruleset));
    [simpl; lia | reflexivity | reflexivity | reflexivity | reflexivity].
Defined.

Lemma payloads_app (type : string) (a b : list json) :
  payloads type (a ++ b) = payloads type a ++ payloads type b.
Proof. unfold payloads. rewrite List.filter_app, map_app. reflexivity. Qed.

Lemma check_schema_versions_app (a rest : list json) (printed : list string) :
  forallb wf_metainfo a = true ->
  check_schema_versions (a ++ rest) printed
  = check_schema_versions rest
      (printed ++ map (fun _ => schema_warning)
                      (List.filter schema_version_above_1 a)).
Proof.
  revert printed. induction a as [|m a' IH]; intros printed H; simpl.
  - rewrite app_nil_r. reflexivity.
  - simpl in H. apply andb_true_iff in H as [Hm Hrest].
    unfold wf_metainfo in Hm. apply andb_true_iff in Hm as [Ht Hn].
    rewrite (py_getitem_tagged _ _ Ht). simpl.
    unfold schema_version_above_1.
    destruct (field "json_schema_version" m) as [| |z|f| | |];
      try discriminate; simpl.
    + destruct (1 <? z); rewrite (IH _ Hrest); simpl;
        [rewrite <- app_assoc|]; reflexivity.
    + destruct (PrimFloat.ltb PrimFloat.one f); rewrite (IH _ Hrest); simpl;
        [rewrite <- app_assoc|]; reflexivity.
Qed.

(** X14. A metainfo entry whose version cannot be compared with 1 stops
    [nft_cmd] with the exception of the comparison: [KeyError] when the
    payload has no [json_schema_version], [TypeError] when the version
    is a string or [None].  The warnings of the metainfo entries before
    it have been printed by then. *)
Theorem bad_schema_version_raises
    (loads : string -> result json) (output error text : string)
    (d : json) (pre post : list json) (m : json) (e : exn) :
  (0 < String.length output)%nat ->
  loads output = Ok d ->
  py_getitem d "nftables" = Ok (JArray (pre ++ m :: post)) ->
  forallb wf_listing_entry pre = true ->
  tagged "metainfo" m = true ->
  (v ← py_getitem (field "metainfo" m) "json_schema_version"; py_gt_1 v) = Raise e ->
  forallb is_object post = true ->
  nft_cmd loads (0, output, error) text = (schema_warnings pre, Raised e).
Proof.
  intros Hlen Hloads Hget Hpre Hm He Hpost.
  destruct (wf_listing_objects _ Hpre) as [Hobj Hmeta].
  assert (Hall : forallb is_object (pre ++ m :: post) = true).
  { rewrite forallb_app. simpl.
    rewrite Hobj, (tagged_is_object _ _ Hm), Hpost. reflexivity. }
  rewrite (nft_cmd_after_decoding _ _ _ _ _ _ Hlen Hloads Hget Hall).
  rewrite payloads_app.
  rewrite (check_schema_versions_app _ _ [] Hmeta).
  assert (Hpay : payloads "metainfo" (m :: post)
                 = field "metainfo" m :: payloads "metainfo" post).
  { unfold payloads. simpl List.filter. rewrite Hm. reflexivity. }
  rewrite Hpay. simpl check_schema_versions. rewrite He. reflexivity.
Qed.

Lemma bad_schema_version_raises_witness :
  nft_cmd (fun _ => Ok (ruleset_document
                           ([listed_metainfo]
                            ++ JObject [("metainfo", JObject [("version", JString "1.0.6")])]
                            :: [listed_table])))
          (0, "{...}", "") "list counters"
  = (schema_warnings [listed_metainfo],
     Raised (KeyError "json_schema_version")).
Proof.
  apply (bad_schema_version_raises
           (fun _ => Ok (ruleset_document
                           ([listed_metainfo]
                            ++ JObject [("metainfo", JObject [("version", JString "1.0.6")])]
                            :: [listed_table])))
           "{...}" "" "list counters"
           (ruleset_document
              ([listed_metainfo]
               ++ JObject [("metainfo", JObject [("version", JString "1.0.6")])]
               :: [listed_table]))
           [listed_metainfo] [listed_table]
           (JObject [("metainfo", JObject [("version", JString "1.0.6")])])
           (KeyError "json_schema_version"));
    [simpl; lia | reflexivity | reflexivity | reflexivity | reflexivity
     | reflexivity | reflexivity].
Defined.

(** ** The script of [nft-read-counters-and-quotas.py] *)

Lemma string_app_nil_r (s : string) : (s ++ "")%string = s.
Proof. induction s as [|c s IH]; simpl; [|rewrite IH]; reflexivity. Qed.

Lemma format_counter_template (a b c d e : string) :
  py_format ReadCounters.counter_template [a; b; c; d; e]
  = Some ("Counter " ++ dq ++ a ++ dq ++ " in table " ++ b ++ " " ++ c
          ++ ": packets " ++ d ++ " bytes " ++ e)%string.
Proof. rewrite <- (string_app_nil_r e) at 2. reflexivity. Qed.

Lemma format_quota_template (a b c d e f : string) :
  py_format ReadCounters.quota_template [a; b; c; d; e; f]
  = Some ("Quota " ++ dq ++ a ++ dq ++ " in table " ++ b ++ " " ++ c
          ++ ": used " ++ d ++ " out of " ++ e
          ++ " bytes (inv: " ++ f ++ ")")%string.
Proof. reflexivity. Qed.

(** X15. The lines of the script: the five values of a counter, and the
    six of a quota, are put in the places of the template in order, each
    as it is, also when a value itself contains braces. *)
Theorem counter_and_quota_lines (a b c d e f : string) :
  py_format ReadCounters.counter_template [a; b; c; d; e]
  = Some ("Counter " ++ dq ++ a ++ dq ++ " in table " ++ b ++ " " ++ c
          ++ ": packets " ++ d ++ " bytes " ++ e)%string
  /\ py_format ReadCounters.quota_template [a; b; c; d; e; f]
     = Some ("Quota " ++ dq ++ a ++ dq ++ " in table " ++ b ++ " " ++ c
             ++ ": used " ++ d ++ " out of " ++ e
             ++ " bytes (inv: " ++ f ++ ")")%string.
Proof. split; [apply format_counter_template | apply format_quota_template]. Qed.

Section ReadCountersFacts.
Context `{Python} {engine : Type} `{Nftables engine}.

Lemma mapM_getitem_ok (o : json) (keys : list string) :
  has_keys keys o = true ->
  mapM (py_getitem o) keys = Ok (map (fun k => field k o) keys).
Proof.
  unfold has_keys. induction keys as [|k rest IH]; simpl; [reflexivity|].
  intros Hk. apply andb_true_iff in Hk as [Hk Hrest].
  rewrite (py_getitem_tagged _ _ Hk). simpl. rewrite (IH Hrest). reflexivity.
Qed.

Lemma mapM_getitem_missing (o : json) (keys : list string) (k : string) :
  is_object o = true ->
  List.find (fun k => negb (tagged k o)) keys = Some k ->
  mapM (py_getitem o) keys = Raise (KeyError k).
Proof.
  intros Ho. induction keys as [|k' rest IH]; simpl; [discriminate|].
  destruct (tagged k' o) eqn:Hk; simpl.
  - intros Hf. rewrite (py_getitem_tagged _ _ Hk). simpl.
    rewrite (IH Hf). reflexivity.
  - intros Hf. inversion Hf; subst k'.
    rewrite (py_getitem_not_tagged _ _ Ho Hk). reflexivity.
Qed.

Lemma print_counter_line (o : json) (w : world engine) :
  has_keys counter_keys o = true ->
  ReadCounters.print_fields ReadCounters.counter_template counter_keys o w
  = (Done tt, World (nft w) (calls w) (printed w ++ [counter_line o])).
Proof.
  intros Hk. unfold ReadCounters.print_fields, mbind, Script_bind, lift.
  rewrite (mapM_getitem_ok _ _ Hk). unfold counter_keys. simpl (List.map _ _).
  rewrite format_counter_template. reflexivity.
Qed.

Lemma print_quota_line (o : json) (w : world engine) :
  has_keys quota_keys o = true ->
  ReadCounters.print_fields ReadCounters.quota_template quota_keys o w
  = (Done tt, World (nft w) (calls w) (printed w ++ [quota_line o])).
Proof.
  intros Hk. unfold ReadCounters.print_fields, mbind, Script_bind, lift.
  rewrite (mapM_getitem_ok _ _ Hk). unfold quota_keys. simpl (List.map _ _).
  rewrite format_quota_template. reflexivity.
Qed.

Lemma for_each_prints {A : Type} (xs : list A) (body : A -> Script engine unit)
      (line : A -> string) (ok : A -> bool) (w : world engine) :
  (forall x w, ok x = true ->
     body x w = (Done tt, World (nft w) (calls w) (printed w ++ [line x]))) ->
  forallb ok xs = true ->
  for_each xs body w
  = (Done tt, World (nft w) (calls w) (printed w ++ map line xs)).
Proof.
  intros Hbody. revert w. induction xs as [|x rest IH]; intros w Hall; simpl.
  - rewrite app_nil_r. destruct w; reflexivity.
  - simpl in Hall. apply andb_true_iff in Hall as [Hx Hrest].
    unfold mbind, Script_bind. rewrite (Hbody x w Hx).
    rewrite (IH _ Hrest). simpl. rewrite <- app_assoc. reflexivity.
Qed.

(** The loop stops at the first element whose body raises, after the
    lines of the elements before it. *)
Lemma for_each_stops {A : Type} (xs rest : list A) (bad : A)
      (body : A -> Script engine unit) (line : A -> string) (ok : A -> bool)
      (e : failure) (w : world engine) :
  (forall x w, ok x = true ->
     body x w = (Done tt, World (nft w) (calls w) (printed w ++ [line x]))) ->
  (forall w, body bad w = (Uncaught e, w)) ->
  forallb ok xs = true ->
  for_each (xs ++ bad :: rest) body w
  = (Uncaught e, World (nft w) (calls w) (printed w ++ map line xs)).
Proof.
  intros Hbody Hbad. revert w. induction xs as [|x xs' IH]; intros w Hall; simpl.
  - unfold mbind, Script_bind. rewrite Hbad, app_nil_r. destruct w; reflexivity.
  - simpl in Hall. apply andb_true_iff in Hall as [Hx Hrest].
    unfold mbind, Script_bind. rewrite (Hbody x w Hx).
    rewrite (IH _ Hrest). simpl. rewrite <- app_assoc. reflexivity.
Qed.

(** The call of [nft_cmd] on a well-formed listing. *)
Lemma nft_cmd_call_wf (text output error : string) (d : json)
      (entries : list json) (e : engine) (w : world engine) :
  cmd text (nft w) = ((0, output, error), e) ->
  (0 < String.length output)%nat ->
  json_loads output = Ok d ->
  py_getitem d "nftables" = Ok (JArray entries) ->
  forallb wf_listing_entry entries = true ->
  ReadCounters.nft_cmd_call text w
  = (Done (JArray entries),
     World e (calls w ++ [Cmd text]) (printed w ++ schema_warnings entries)).
Proof.
  intros Hcmd Hlen Hloads Hget Hwf.
  destruct (wf_listing_objects _ Hwf) as [Hobj Hmeta].
  unfold ReadCounters.nft_cmd_call. rewrite Hcmd.
  rewrite (nft_cmd_after_decoding _ _ _ _ _ _ Hlen Hloads Hget Hobj).
  rewrite (check_schema_versions_wf _ [] Hmeta). reflexivity.
Qed.
End ReadCountersFacts.

Section ReadCountersMain.
Context `{Python} {engine : Type} `{Nftables engine}.

Lemma read_counters_main_configured :
  ReadCounters.main start
  = (ruleset ← ReadCounters.nft_cmd_call "list counters";
     counters ← lift (_find_objects ruleset "counter");
     for_each counters
       (ReadCounters.print_fields ReadCounters.counter_template counter_keys);;
     ruleset ← ReadCounters.nft_cmd_call "list quotas";
     quotas ← lift (_find_objects ruleset "quota");
     for_each quotas
       (ReadCounters.print_fields ReadCounters.quota_template quota_keys))
      (World read_configured read_settings []).
Proof. reflexivity. Qed.

(** X16. When the listing of the counters fails (a status other than 0),
    the script prints the command and the error text and exits with
    status 1: nothing is printed for counters or quotas and the quotas
    are never asked for. *)
Theorem read_counters_stops_on_failed_listing
    (rc : Z) (output error : string) (e1 : engine) :
  cmd "list counters" read_configured = ((rc, output, error), e1) ->
  rc <> 0 ->
  ReadCounters.main start
  = (SystemExit 1,
     World e1 (read_settings ++ [Cmd "list counters"])
           ["ERROR: running cmd list counters"; error]).
Proof.
  intros Hcmd Hrc. rewrite read_counters_main_configured.
  unfold mbind at 1, Script_bind at 1, ReadCounters.nft_cmd_call.
  simpl nft. rewrite Hcmd. unfold nft_cmd.
  apply Z.eqb_neq in Hrc. rewrite Hrc. reflexivity.
Qed.
End ReadCountersMain.

Lemma read_counters_stops_on_failed_listing_witness :
  @ReadCounters.main sample_python nat failing_nftables
    (@start nat failing_nftables)
  = (SystemExit 1,
     World 1%nat (read_settings ++ [Cmd "list counters"])
           ["ERROR: running cmd list counters"; "Operation not permitted"]).
Proof.
  apply (@read_counters_stops_on_failed_listing sample_python nat failing_nftables
           1 "" "Operation not permitted" 1%nat); [reflexivity | lia].
Defined.

Section ReadCountersListings.
Context `{Python} {engine : Type} `{Nftables engine}.

Lemma find_objects_lifted (entries : list json) (type : string) (w : world engine) :
  forallb wf_listing_entry entries = true ->
  lift (_find_objects (JArray entries) type) w = (Done (payloads type entries), w).
Proof.
  intros Hwf. destruct (wf_listing_objects _ Hwf) as [Hobj _].
  unfold lift, _find_objects. simpl py_iter. rewrite bind_ok.
  rewrite (find_objects_loop_objects _ _ Hobj). reflexivity.
Qed.

(** X17. When both listings succeed and are well formed (every counter
    carries name, family, table, packets and bytes, every quota name,
    family, table, used, bytes and inv), the script returns after
    printing, in this order: the schema warnings of the first listing,
    one line per counter in listing order, the schema warnings of the
    second listing, one line per quota in listing order.  It has asked
    the library for the counters, then for the quotas, and for nothing
    else. *)
Theorem read_counters_prints_every_object
    (out1 err1 out2 err2 : string) (d1 d2 : json) (entries1 entries2 : list json)
    (e1 e2 : engine) :
  cmd "list counters" read_configured = ((0, out1, err1), e1) ->
  (0 < String.length out1)%nat ->
  json_loads out1 = Ok d1 ->
  py_getitem d1 "nftables" = Ok (JArray entries1) ->
  forallb wf_listing_entry entries1 = true ->
  forallb (has_keys counter_keys) (payloads "counter" entries1) = true ->
  cmd "list quotas" e1 = ((0, out2, err2), e2) ->
  (0 < String.length out2)%nat ->
  json_loads out2 = Ok d2 ->
  py_getitem d2 "nftables" = Ok (JArray entries2) ->
  forallb wf_listing_entry entries2 = true ->
  forallb (has_keys quota_keys) (payloads "quota" entries2) = true ->
  ReadCounters.main start
  = (Done tt,
     World e2 (read_settings ++ [Cmd "list counters"; Cmd "list quotas"])
           (schema_warnings entries1
            ++ map counter_line (payloads "counter" entries1)
            ++ schema_warnings entries2
            ++ map quota_line (payloads "quota" entries2))).
Proof.
  intros Hc1 Hl1 Hj1 Hg1 Hw1 Hk1 Hc2 Hl2 Hj2 Hg2 Hw2 Hk2.
  rewrite read_counters_main_configured.
  unfold mbind at 1, Script_bind at 1.
  rewrite (nft_cmd_call_wf "list counters" out1 err1 d1 entries1 e1
             (World read_configured read_settings []) Hc1 Hl1 Hj1 Hg1 Hw1).
  unfold mbind at 1, Script_bind at 1.
  rewrite (find_objects_lifted _ _ _ Hw1).
  unfold mbind at 1, Script_bind at 1.
  rewrite (for_each_prints _ _ counter_line (has_keys counter_keys) _
             print_counter_line Hk1).
  unfold mbind at 1, Script_bind at 1.
  match goal with
  | |- context [ReadCounters.nft_cmd_call "list quotas" ?w] =>
      rewrite (nft_cmd_call_wf "list quotas" out2 err2 d2 entries2 e2 w
                 Hc2 Hl2 Hj2 Hg2 Hw2)
  end.
  unfold mbind at 1, Script_bind at 1.
  rewrite (find_objects_lifted _ _ _ Hw2).
  rewrite (for_each_prints _ _ quota_line (has_keys quota_keys) _
             print_quota_line Hk2).
  simpl. rewrite <- !app_assoc. reflexivity.
Qed.

(** X18. A counter that lacks one of its five keys stops the script with
    a [KeyError] for the first key it lacks: the lines of the counters
    before it have been printed, no line is printed for it or for the
    counters after it, and the quotas are never asked for. *)
Theorem read_counters_stops_at_broken_counter
    (out1 err1 : string) (d1 : json) (entries1 good rest : list json)
    (bad : json) (k : string) (e1 : engine) :
  cmd "list counters" read_configured = ((0, out1, err1), e1) ->
  (0 < String.length out1)%nat ->
  json_loads out1 = Ok d1 ->
  py_getitem d1 "nftables" = Ok (JArray entries1) ->
  forallb wf_listing_entry entries1 = true ->
  payloads "counter" entries1 = good ++ bad :: rest ->
  forallb (has_keys counter_keys) good = true ->
  is_object bad = true ->
  List.find (fun k => negb (tagged k bad)) counter_keys = Some k ->
  ReadCounters.main start
  = (Uncaught (Exn (KeyError k)),
     World e1 (read_settings ++ [Cmd "list counters"])
           (schema_warnings entries1 ++ map counter_line good)).
Proof.
  intros Hc1 Hl1 Hj1 Hg1 Hw1 Hsplit Hgood Hobj Hk.
  rewrite read_counters_main_configured.
  unfold mbind at 1, Script_bind at 1.
  rewrite (nft_cmd_call_wf "list counters" out1 err1 d1 entries1 e1
             (World read_configured read_settings []) Hc1 Hl1 Hj1 Hg1 Hw1).
  unfold mbind at 1, Script_bind at 1.
  rewrite (find_objects_lifted _ _ _ Hw1). rewrite Hsplit.
  unfold mbind at 1, Script_bind at 1.
  rewrite (for_each_stops good rest bad _ counter_line (has_keys counter_keys)
             (Exn (KeyError k)) _ print_counter_line); [reflexivity | | exact Hgood].
  intros w. unfold ReadCounters.print_fields, mbind, Script_bind, lift.
  rewrite (mapM_getitem_missing _ _ _ Hobj Hk). reflexivity.
Qed.
End ReadCountersListings.

Lemma read_counters_prints_every_object_witness :
  @ReadCounters.main sample_python nat sample_nftables
    (@start nat sample_nftables)
  = (Done tt,
     World 2%nat (read_settings ++ [Cmd "list counters"; Cmd "list quotas"])
           (schema_warnings (command_entries counters_listing)
            ++ map (@counter_line sample_python)
                   (payloads "counter" (command_entries counters_listing))
            ++ schema_warnings (command_entries quotas_listing)
            ++ map (@quota_line sample_python)
                   (payloads "quota" (command_entries quotas_listing)))).
Proof.
  apply (@read_counters_prints_every_object sample_python nat sample_nftables
           "counters" "" "quotas" "" counters_listing quotas_listing
           (command_entries counters_listing) (command_entries quotas_listing)
           1%nat 2%nat);
    first [reflexivity | simpl; lia].
Defined.

Lemma read_counters_stops_at_broken_counter_witness :
  @ReadCounters.main sample_python nat broken_nftables
    (@start nat broken_nftables)
  = (Uncaught (Exn (KeyError "packets")),
     World 1%nat (read_settings ++ [Cmd "list counters"])
           (schema_warnings (command_entries broken_counters_listing)
            ++ map (@counter_line sample_python)
                   [JObject [("family", JString "ip"); ("name", JString "first");
                             ("table", JString "mytable");
                             ("packets", JInt 5); ("bytes", JInt 300)]])).
Proof.
  apply (@read_counters_stops_at_broken_counter sample_python nat broken_nftables
           "broken" "" broken_counters_listing
           (command_entries broken_counters_listing)
           [JObject [("family", JString "ip"); ("name", JString "first");
                     ("table", JString "mytable");
                     ("packets", JInt 5); ("bytes", JInt 300)]]
           []
           (JObject [("family", JString "ip"); ("name", JString "second");
                     ("table", JString "mytable"); ("bytes", JInt 0)])
           "packets" 1%nat);
    first [reflexivity | simpl; lia].
Defined.

(** ** The script of [nft-delete-rule.py] *)

Section DeleteRuleRuns.
Context `{Python} {engine : Type} `{Nftables engine}.

(** X19. [get_ruleset] returns a document only when the library listed
    the ruleset with status 0 and a non-empty output, the output decoded
    and the decoded document passed [json_validate]; it returns that
    document, and has printed nothing. *)
Theorem get_ruleset_returns_validated (w w' : world engine) (d : json) :
  DeleteRule.get_ruleset w = (Done d, w') ->
  exists (output error : string) (e : engine),
    cmd "list ruleset" (nft w) = ((0, output, error), e)
    /\ output <> EmptyString
    /\ json_loads output = Ok d
    /\ json_validate d = None
    /\ w' = World e (calls w ++ [Cmd "list ruleset"; JsonValidate d]) (printed w).
Proof.
  unfold DeleteRule.get_ruleset.
  unfold mbind, Script_bind, mret, Script_ret, call_cmd, call_json_validate,
    print, exit, lift.
  destruct (cmd "list ruleset" (nft w)) as [[[rc output] error] e] eqn:Hcmd.
  simpl. destruct (rc =? 0) eqn:Hrc; simpl; [|discriminate].
  apply Z.eqb_eq in Hrc. subst rc.
  destruct output as [|c s]; simpl; [discriminate|].
  destruct (json_loads (String c s)) as [doc|x] eqn:Hloads; simpl; [|discriminate].
  destruct (json_validate doc) as [msg|] eqn:Hval; simpl; [discriminate|].
  intros Hrun. inversion Hrun; subst.
  exists (String c s), error, e.
  repeat split; try assumption; [discriminate|].
  rewrite <- app_assoc. reflexivity.
Qed.
End DeleteRuleRuns.

Lemma get_ruleset_returns_validated_witness :
  exists (output error : string) (e : nat),
    @cmd nat sample_nftables "list ruleset" (nft (@start nat sample_nftables))
    = ((0, output, error), e)
    /\ output <> EmptyString
    /\ @json_loads sample_python output = Ok kernel_ruleset
    /\ @json_validate nat sample_nftables kernel_ruleset = None
    /\ World 1%nat [Cmd "list ruleset"; JsonValidate kernel_ruleset] []
       = World e (calls (@start nat sample_nftables)
                  ++ [Cmd "list ruleset"; JsonValidate kernel_ruleset])
               (printed (@start nat sample_nftables)).
Proof.
  apply (@get_ruleset_returns_validated sample_python nat sample_nftables
           (@start nat sample_nftables)
           (World 1%nat [Cmd "list ruleset"; JsonValidate kernel_ruleset] [])
           kernel_ruleset).
  reflexivity.
Defined.

(** ** What every run of a script keeps *)

Section Soundness.
Context `{Python} {engine : Type} `{Nftables engine}.

Lemma sound_ret {A : Type} (a : A) (V : A -> Prop) :
  V a -> sound (mret a : Script engine A) V.
Proof. intros Ha w Hw. split; [exact Hw | exact Ha]. Qed.

Lemma sound_bind {A B : Type} (m : Script engine A) (k : A -> Script engine B)
      (V : A -> Prop) (V' : B -> Prop) :
  sound m V -> (forall a, V a -> sound (k a) V') -> sound (m ≫= k) V'.
Proof.
  intros Hm Hk w Hw. unfold mbind, Script_bind.
  destruct (Hm w Hw) as [Hw' Hr].
  destruct (m w) as [[a|status|e] w']; simpl in *.
  - apply (Hk a Hr w' Hw').
  - split; assumption.
  - split; [assumption | exact I].
Qed.

Lemma sound_weaken {A : Type} (s : Script engine A) (V V' : A -> Prop) :
  sound s V -> (forall a, V a -> V' a) -> sound s V'.
Proof.
  intros Hs Himp w Hw. destruct (Hs w Hw) as [Hw' Hr]. split; [exact Hw'|].
  destruct (fst (s w)); auto.
Qed.

Lemma sound_print (line : string) : sound (print line) (fun _ => True).
Proof. intros w Hw. split; [exact Hw | exact I]. Qed.

Lemma sound_exit {A : Type} (status : Z) (V : A -> Prop) :
  status = 0 \/ status = 1 -> sound (exit status : Script engine A) V.
Proof. intros Hs w Hw. split; [exact Hw | exact Hs]. Qed.

Lemma sound_lift {A : Type} (r : result A) :
  sound (lift r) (fun a => r = Ok a).
Proof. intros w Hw. destruct r; simpl; split; auto. Qed.

Lemma validated_call (w : world engine) (c : call) (e : engine) (p : list string) :
  validated w ->
  (forall j, c = JsonCmd j -> json_validate j = None) ->
  validated (World e (calls w ++ [c]) p).
Proof.
  intros Hw Hc j Hin. simpl in Hin. apply in_app_or in Hin as [Hin|Hin].
  - apply Hw; exact Hin.
  - destruct Hin as [Hin|[]]. apply Hc; exact Hin.
Qed.

Lemma sound_configure (c : call) (set : engine -> engine) :
  (forall j, c <> JsonCmd j) -> sound (configure c set) (fun _ => True).
Proof.
  intros Hc w Hw. split; [|exact I]. simpl.
  apply validated_call; [exact Hw|]. intros j Hj. destruct (Hc j Hj).
Qed.

Lemma sound_call_cmd (text : string) : sound (call_cmd text) (fun _ => True).
Proof.
  intros w Hw. unfold call_cmd.
  destruct (cmd text (nft w)) as [answer e]. simpl. split; [|exact I].
  apply validated_call; [exact Hw | discriminate].
Qed.

Lemma sound_call_json_validate (root : json) :
  sound (call_json_validate root) (fun r => r = json_validate root).
Proof.
  intros w Hw. split; [|reflexivity]. simpl.
  apply validated_call; [exact Hw | discriminate].
Qed.

Lemma sound_call_json_cmd (root : json) :
  json_validate root = None -> sound (call_json_cmd root) (fun _ => True).
Proof.
  intros Hroot w Hw. unfold call_json_cmd.
  destruct (json_cmd root (nft w)) as [answer e]. simpl. split; [|exact I].
  apply validated_call; [exact Hw|]. intros j Hj. inversion Hj; subst. exact Hroot.
Qed.

(** The check after [json_validate]: it returns only when the document
    was accepted. *)
Lemma sound_validation_check (invalid : option string) (prefix : string) :
  sound (match invalid with
         | Some msg => print (prefix ++ msg)%string;; exit 1
         | None => mret tt
         end : Script engine unit)
        (fun _ => invalid = None).
Proof.
  destruct invalid as [msg|].
  - apply (sound_bind _ _ (fun _ => True)); [apply sound_print|].
    intros _ _. apply sound_exit. right; reflexivity.
  - apply sound_ret. reflexivity.
Qed.

(** The check of the status after a command. *)
Lemma sound_status_check (rc : Z) (line : string) :
  sound ((if negb (rc =? 0) then print line;; exit 1 else mret tt)
         : Script engine unit)
        (fun _ => True).
Proof.
  destruct (negb (rc =? 0)).
  - apply (sound_bind _ _ (fun _ => True)); [apply sound_print|].
    intros _ _. apply sound_exit. right; reflexivity.
  - apply sound_ret. exact I.
Qed.

(** The warning about the output of [json_cmd]. *)
Lemma sound_output_warning (output : json) :
  sound (n ← lift (py_len output);
         if negb (n =? 0)%nat
         then print ("WARNING: output: " ++ py_str output)%string
         else mret tt)
        (fun _ => True).
Proof.
  apply (sound_bind _ _ (fun _ => True));
    [apply (sound_weaken _ _ _ (sound_lift _)); auto|].
  intros n _. destruct (negb (n =? 0)%nat); [apply sound_print | apply sound_ret; exact I].
Qed.

(** Validation, submission, check of the status and warning: the end of
    [load_ruleset] and of both [main]s that submit a document. *)
Lemma sound_submit (root : json) (p1 p2 : string) :
  sound (invalid ← call_json_validate root;
         match invalid with
         | Some msg => print (p1 ++ msg)%string;; exit 1
         | None => mret tt
         end;;
         '(rc, output, error) ← call_json_cmd root;
         (if negb (rc =? 0)
          then print (p2 ++ error)%string;; exit 1
          else mret tt);;
         n ← lift (py_len output);
         if negb (n =? 0)%nat
         then print ("WARNING: output: " ++ py_str output)%string
         else mret tt)
        (fun _ => True).
Proof.
  apply (sound_bind _ _ _ _ (sound_call_json_validate root)).
  intros invalid ->.
  apply (sound_bind _ _ _ _ (sound_validation_check _ p1)).
  intros _ Hvalid.
  apply (sound_bind _ _ _ _ (sound_call_json_cmd root Hvalid)).
  intros [[rc output] error] _.
  apply (sound_bind _ _ _ _ (sound_status_check rc _)).
  intros _ _. apply sound_output_warning.
Qed.

Lemma sound_load_ruleset : sound DeleteRule.load_ruleset (fun _ => True).
Proof.
  unfold DeleteRule.load_ruleset.
  apply (sound_bind _ _ (fun _ => True)).
  - destruct (json_loads DeleteRule.NFTABLES_RULESET_JSON) as [d|[]].
    + apply sound_ret. exact I.
    + apply (sound_weaken _ _ _ (sound_lift _)). auto.
    + apply (sound_weaken _ _ _ (sound_lift _)). auto.
    + apply (sound_weaken _ _ _ (sound_lift _)). auto.
    + apply (sound_bind _ _ (fun _ => True)); [apply sound_print|].
      intros _ _. apply sound_exit. right; reflexivity.
  - intros d _. apply sound_submit.
Qed.

Lemma sound_get_ruleset : sound DeleteRule.get_ruleset (fun _ => True).
Proof.
  unfold DeleteRule.get_ruleset.
  apply (sound_bind _ _ _ _ (sound_call_cmd _)).
  intros [[rc output] error] _.
  apply (sound_bind _ _ (fun _ => True)).
  { destruct (negb (rc =? 0)); [|apply sound_ret; exact I].
    apply (sound_bind _ _ _ _ (sound_print _)). intros _ _.
    apply (sound_bind _ _ _ _ (sound_print _)). intros _ _.
    apply sound_exit. right; reflexivity. }
  intros _ _. apply (sound_bind _ _ (fun _ => True)).
  { destruct (String.length output =? 0)%nat; [|apply sound_ret; exact I].
    apply (sound_bind _ _ _ _ (sound_print _)). intros _ _.
    apply sound_exit. left; reflexivity. }
  intros _ _.
  apply (sound_bind _ _ (fun _ => True));
    [apply (sound_weaken _ _ _ (sound_lift _)); auto|].
  intros d _.
  apply (sound_bind _ _ _ _ (sound_call_json_validate d)).
  intros invalid ->.
  apply (sound_bind _ _ _ _ (sound_validation_check _ _)).
  intros _ _. apply sound_ret. exact I.
Qed.

Lemma validated_start : validated (start : world engine).
Proof. intros j []. Qed.

(** X20. In every run of [nft-delete-rule.py], whatever the library and
    the kernel answer: a document is submitted with [json_cmd] only
    after [json_validate] has accepted it; the script never returns
    from [main], it exits or stops on an exception; and the exit status
    is 0 or 1. *)
Theorem delete_rule_submits_validated_only :
  (forall j : json,
      In (JsonCmd j) (calls (snd (DeleteRule.main start))) ->
      json_validate j = None)
  /\ match fst (DeleteRule.main start) with
     | Done _ => False
     | SystemExit status => status = 0 \/ status = 1
     | Uncaught _ => True
     end.
Proof.
  assert (Hmain : sound DeleteRule.main (fun _ => False)).
  { unfold DeleteRule.main.
    apply (sound_bind _ _ (fun _ => True)); [apply sound_configure; discriminate|].
    intros _ _.
    apply (sound_bind _ _ (fun _ => True)); [apply sound_configure; discriminate|].
    intros _ _.
    apply (sound_bind _ _ _ _ sound_load_ruleset). intros _ _.
    apply (sound_bind _ _ _ _ sound_get_ruleset). intros kernel_ruleset _.
    apply (sound_bind _ _ (fun _ => True));
      [apply (sound_weaken _ _ _ (sound_lift _)); auto|].
    intros infos _.
    apply (sound_bind _ _ _ _ (sound_call_json_validate _)).
    intros invalid ->.
    apply (sound_bind _ _ _ _ (sound_validation_check _ _)).
    intros _ Hvalid.
    apply (sound_bind _ _ _ _ (sound_call_json_cmd _ Hvalid)).
    intros [[rc output] error] _.
    apply (sound_bind _ _ _ _ (sound_status_check rc _)). intros _ _.
    apply (sound_bind _ _ (fun _ => True));
      [apply (sound_weaken _ _ _ (sound_lift _)); auto|].
    intros n _.
    apply (sound_bind _ _ (fun _ => True)).
    { destruct (negb (n =? 0)%nat);
        [apply sound_print | apply sound_ret; exact I]. }
    intros _ _. apply sound_exit. left; reflexivity. }
  apply (Hmain start validated_start).
Qed.

(** X21. In every run of [nft-load-example-ruleset.py]: the ruleset is
    submitted with [json_cmd] only after [json_validate] has accepted
    it; the script never returns from [main]; and the exit status is 0
    or 1. *)
Theorem load_example_submits_validated_only :
  (forall j : json,
      In (JsonCmd j) (calls (snd (LoadExample.main start))) ->
      json_validate j = None)
  /\ match fst (LoadExample.main start) with
     | Done _ => False
     | SystemExit status => status = 0 \/ status = 1
     | Uncaught _ => True
     end.
Proof.
  assert (Hmain : sound LoadExample.main (fun _ => False)).
  { unfold LoadExample.main.
    apply (sound_bind _ _ (fun _ => True)).
    - destruct (json_loads LoadExample.NFTABLES_JSON) as [d|[]].
      + apply sound_ret. exact I.
      + apply (sound_weaken _ _ _ (sound_lift _)). auto.
      + apply (sound_weaken _ _ _ (sound_lift _)). auto.
      + apply (sound_weaken _ _ _ (sound_lift _)). auto.
      + apply (sound_bind _ _ (fun _ => True)); [apply sound_print|].
        intros _ _. apply sound_exit. right; reflexivity.
    - intros d _.
      apply (sound_bind _ _ _ _ (sound_call_json_validate _)).
      intros invalid ->.
      apply (sound_bind _ _ _ _ (sound_validation_check _ _)).
      intros _ Hvalid.
      apply (sound_bind _ _ _ _ (sound_print _)). intros _ _.
      apply (sound_bind _ _ _ _ (sound_call_json_cmd _ Hvalid)).
      intros [[rc output] error] _.
      apply (sound_bind _ _ _ _ (sound_status_check rc _)). intros _ _.
      apply (sound_bind _ _ (fun _ => True));
        [apply (sound_weaken _ _ _ (sound_lift _)); auto|].
      intros n _.
      apply (sound_bind _ _ (fun _ => True)).
      { destruct (negb (n =? 0)%nat);
          [apply sound_print | apply sound_ret; exact I]. }
      intros _ _. apply sound_exit. left; reflexivity. }
  apply (Hmain start validated_start).
Qed.
End Soundness.

(** ** The runs of [nft-delete-rule.py] *)

Ltac run_binds :=
  cbv beta iota zeta delta [mbind Script_bind mret Script_ret configure
    call_cmd call_json_cmd call_json_validate print exit lift start];
  cbn [nft calls printed].

Section DeleteRulePaths.
Context `{Python} {engine : Type} `{Nftables engine}.

Lemma get_ruleset_run (w : world engine) (output error : string) (e : engine)
      (d : json) :
  cmd "list ruleset" (nft w) = ((0, output, error), e) ->
  output <> EmptyString ->
  json_loads output = Ok d ->
  json_validate d = None ->
  DeleteRule.get_ruleset w
  = (Done d, World e (calls w ++ [Cmd "list ruleset"; JsonValidate d]) (printed w)).
Proof.
  intros Hcmd Hout Hloads Hval.
  unfold DeleteRule.get_ruleset.
  unfold mbind, Script_bind, mret, Script_ret, call_cmd, call_json_validate,
    print, exit, lift.
  rewrite Hcmd. simpl.
  destruct output as [|c s]; [contradiction|]. simpl.
  rewrite Hloads. simpl. rewrite Hval. simpl.
  rewrite <- app_assoc. reflexivity.
Qed.

Lemma delete_rule_main_configured :
  DeleteRule.main start
  = (DeleteRule.load_ruleset;;
     kernel_ruleset ← DeleteRule.get_ruleset;
     info_about_rules_to_delete ← lift (search_rules_with_counter kernel_ruleset);
     invalid ← call_json_validate (build_delete_command info_about_rules_to_delete);
     match invalid with
     | Some msg =>
         print ("ERROR: failed validating JSON schema: " ++ msg)%string;; exit 1
     | None => mret tt
     end;;
     '(rc, output, error) ←
        call_json_cmd (build_delete_command info_about_rules_to_delete);
     (if negb (rc =? 0)
      then print ("ERROR: running JSON cmd: " ++ error)%string;; exit 1
      else mret tt);;
     n ← lift (py_len output);
     (if negb (n =? 0)%nat
      then print ("WARNING: output: " ++ py_str output)%string
      else mret tt);;
     exit 0) delete_configured_world.
Proof. reflexivity. Qed.

(** X22. The run of [nft-delete-rule.py] when nothing fails.  After the
    example ruleset is loaded, the kernel's listing is decoded and
    validated, the rules with a counter are searched in it, and the one
    command that is validated and then submitted is the delete command
    built from what the search returned; the script exits with
    status 0. *)
Theorem delete_rule_run
    (w2 : world engine) (output error : string) (e3 e4 : engine)
    (doc : json) (infos : list json) (out : json) (err : string) (n : nat) :
  DeleteRule.load_ruleset delete_configured_world = (Done tt, w2) ->
  cmd "list ruleset" (nft w2) = ((0, output, error), e3) ->
  output <> EmptyString ->
  json_loads output = Ok doc ->
  json_validate doc = None ->
  search_rules_with_counter doc = Ok infos ->
  json_validate (build_delete_command infos) = None ->
  json_cmd (build_delete_command infos) e3 = ((0, out, err), e4) ->
  py_len out = Ok n ->
  DeleteRule.main start
  = (SystemExit 0,
     World e4
       (calls w2 ++ [Cmd "list ruleset"; JsonValidate doc;
                     JsonValidate (build_delete_command infos);
                     JsonCmd (build_delete_command infos)])
       (printed w2 ++ output_warning out n)).
Proof.
  intros Hload Hcmd Hout Hloads Hval Hsearch Hvalc Hjc Hlen.
  pose proof (get_ruleset_run w2 output error e3 doc Hcmd Hout Hloads Hval) as Hget.
  rewrite delete_rule_main_configured. run_binds.
  rewrite Hload, Hget. simpl. rewrite Hsearch, Hvalc. simpl. rewrite Hjc. simpl.
  rewrite Hlen. unfold output_warning.
  destruct (negb (n =? 0)%nat); simpl; rewrite <- !app_assoc; simpl;
    rewrite ?app_nil_r; reflexivity.
Qed.

(** X23. When the kernel lists nothing (status 0 and an empty output),
    [nft-delete-rule.py] prints an error line and exits with status 0,
    the status of a success; the listing is the last call on the
    library, so that nothing is deleted. *)
Theorem delete_rule_empty_listing
    (w2 : world engine) (error : string) (e3 : engine) :
  DeleteRule.load_ruleset delete_configured_world = (Done tt, w2) ->
  cmd "list ruleset" (nft w2) = ((0, EmptyString, error), e3) ->
  DeleteRule.main start
  = (SystemExit 0,
     World e3 (calls w2 ++ [Cmd "list ruleset"])
           (printed w2 ++ ["ERROR: no output from libnftables"])).
Proof.
  intros Hload Hcmd.
  rewrite delete_rule_main_configured. run_binds.
  rewrite Hload. unfold DeleteRule.get_ruleset. run_binds.
  rewrite Hcmd. reflexivity.
Qed.

(** X24. When the search raises on the kernel's listing (a rule with a
    counter and without a handle, a rule without [expr], ...), the
    script stops on that exception: the validation of the listing is the
    last call on the library, no delete command is validated or
    submitted, and nothing more is printed. *)
Theorem delete_rule_search_raises
    (w2 : world engine) (output error : string) (e3 : engine)
    (doc : json) (x : exn) :
  DeleteRule.load_ruleset delete_configured_world = (Done tt, w2) ->
  cmd "list ruleset" (nft w2) = ((0, output, error), e3) ->
  output <> EmptyString ->
  json_loads output = Ok doc ->
  json_validate doc = None ->
  search_rules_with_counter doc = Raise x ->
  DeleteRule.main start
  = (Uncaught (Exn x),
     World e3 (calls w2 ++ [Cmd "list ruleset"; JsonValidate doc]) (printed w2)).
Proof.
  intros Hload Hcmd Hout Hloads Hval Hsearch.
  pose proof (get_ruleset_run w2 output error e3 doc Hcmd Hout Hloads Hval) as Hget.
  rewrite delete_rule_main_configured. run_binds.
  rewrite Hload, Hget. simpl. rewrite Hsearch. reflexivity.
Qed.

(** X25. [load_ruleset] returns only when the script's literal was
    decoded, [json_validate] accepted the document and [json_cmd]
    answered with status 0; it has then made exactly these two calls
    with that document, and has printed at most the warning about the
    output of [json_cmd]. *)
Theorem load_ruleset_returns (w w' : world engine) :
  DeleteRule.load_ruleset w = (Done tt, w') ->
  exists (d out : json) (err : string) (e : engine) (n : nat),
    json_loads DeleteRule.NFTABLES_RULESET_JSON = Ok d
    /\ json_validate d = None
    /\ json_cmd d (nft w) = ((0, out, err), e)
    /\ py_len out = Ok n
    /\ w' = World e (calls w ++ [JsonValidate d; JsonCmd d])
                  (printed w ++ output_warning out n).
Proof.
  unfold DeleteRule.load_ruleset. run_binds.
  destruct (json_loads DeleteRule.NFTABLES_RULESET_JSON) as [d|x];
    [|destruct x; simpl; intros Hrun; discriminate Hrun].
  destruct (json_validate d) as [msg|] eqn:Hval; simpl;
    [intros Hrun; discriminate Hrun|].
  destruct (json_cmd d (nft w)) as [[[rc out] err] e] eqn:Hjc.
  destruct (rc =? 0) eqn:Hrc; simpl; [|intros Hrun; discriminate Hrun].
  apply Z.eqb_eq in Hrc. subst rc.
  destruct (py_len out) as [n|x] eqn:Hlen; simpl; [|intros Hrun; discriminate Hrun].
  intros Hrun. exists d, out, err, e, n.
  split; [reflexivity|]. split; [exact Hval|]. split; [exact Hjc|].
  split; [exact Hlen|].
  unfold output_warning.
  destruct (negb (n =? 0)%nat); simpl in Hrun; inversion Hrun; subst;
    rewrite <- ?app_assoc, ?app_nil_r; reflexivity.
Qed.
End DeleteRulePaths.

Lemma delete_rule_run_witness :
  @DeleteRule.main sample_python nat sample_nftables (@start nat sample_nftables)
  = (SystemExit 0,
     World 3%nat
       (calls sample_loaded
        ++ [Cmd "list ruleset"; JsonValidate kernel_ruleset;
            JsonValidate (build_delete_command [inet_selector (JInt 3)]);
            JsonCmd (build_delete_command [inet_selector (JInt 3)])])
       (printed sample_loaded ++ @output_warning sample_python (JString "") 0)).
Proof.
  apply (@delete_rule_run sample_python nat sample_nftables
           sample_loaded "ruleset" "" 2%nat 3%nat kernel_ruleset
           [inet_selector (JInt 3)] (JString "") "" 0%nat);
    [vm_compute; reflexivity | reflexivity | discriminate | reflexivity
     | reflexivity | reflexivity | reflexivity | reflexivity | reflexivity].
Defined.

Lemma delete_rule_empty_listing_witness :
  @DeleteRule.main sample_python nat silent_nftables (@start nat silent_nftables)
  = (SystemExit 0,
     World 2%nat (calls sample_loaded ++ [Cmd "list ruleset"])
           (printed sample_loaded ++ ["ERROR: no output from libnftables"])).
Proof.
  apply (@delete_rule_empty_listing sample_python nat silent_nftables
           sample_loaded "" 2%nat); [vm_compute; reflexivity | reflexivity].
Defined.

Lemma delete_rule_search_raises_witness :
  @DeleteRule.main sample_python nat handleless_nftables
    (@start nat handleless_nftables)
  = (Uncaught (Exn (KeyError "handle")),
     World 2%nat
       (calls sample_loaded ++ [Cmd "list ruleset"; JsonValidate handleless_ruleset])
       (printed sample_loaded)).
Proof.
  apply (@delete_rule_search_raises sample_python nat handleless_nftables
           sample_loaded "handleless" "" 2%nat handleless_ruleset
           (KeyError "handle"));
    [vm_compute; reflexivity | reflexivity | discriminate | reflexivity
     | reflexivity | reflexivity].
Defined.

Lemma load_ruleset_returns_witness :
  exists (d out : json) (err : string) (e : nat) (n : nat),
    @json_loads sample_python DeleteRule.NFTABLES_RULESET_JSON = Ok d
    /\ @json_validate nat sample_nftables d = None
    /\ @json_cmd nat sample_nftables d
         (nft (@delete_configured_world nat sample_nftables))
       = ((0, out, err), e)
    /\ py_len out = Ok n
    /\ sample_loaded
       = World e (calls (@delete_configured_world nat sample_nftables)
                  ++ [JsonValidate d; JsonCmd d])
               (printed (@delete_configured_world nat sample_nftables)
                ++ @output_warning sample_python out n).
Proof.
  apply (@load_ruleset_returns sample_python nat sample_nftables
           (@delete_configured_world nat sample_nftables) sample_loaded).
  vm_compute. reflexivity.
Defined.

(** ** The runs of [nft-read-json.py] *)

Lemma format_raw_line (output : string) :
  py_format ("raw libnftables JSON output:" ++ ReadJson.nl ++ "{}")%string [output]
  = Some (raw_line output).
Proof.
  unfold raw_line. rewrite <- (string_app_nil_r output) at 2. reflexivity.
Qed.

Lemma format_native_line `{Python} (d : json) :
  py_format ("native python data structure:" ++ ReadJson.nl ++ "{}")%string
            [py_str d]
  = Some (native_line d).
Proof.
  unfold native_line. rewrite <- (string_app_nil_r (py_str d)) at 2. reflexivity.
Qed.

Section ReadJsonRuns.
Context `{Python} {engine : Type} `{Nftables engine}.

(** X26. [nft-read-json.py] applies the five settings, lists the ruleset
    once and makes no other call on the library, whatever the library
    answers.  A status other than 0 prints the error and exits with
    status 1; an empty output prints an error line and exits with
    status 0.  Otherwise the script prints the raw output before it
    decodes it: when [json.loads] raises, the script stops on that
    exception with the raw output printed; otherwise it prints the
    decoded document too and [main] returns. *)
Theorem read_json_run (rc : Z) (output error : string) (e : engine) :
  cmd "list ruleset" read_configured = ((rc, output, error), e) ->
  ReadJson.main start
  = let '(ending, lines) :=
      if negb (rc =? 0)
      then (SystemExit 1, ["ERROR: running cmd 'list ruleset'"; error])
      else if String.eqb output EmptyString
      then (SystemExit 0, ["ERROR: no output from libnftables"])
      else match json_loads output with
           | Ok d => (Done tt, [raw_line output; native_line d])
           | Raise x => (Uncaught (Exn x), [raw_line output])
           end in
    (ending, World e (read_settings ++ [Cmd "list ruleset"]) lines).
Proof.
  intros Hcmd.
  unfold ReadJson.main. run_binds. fold (@read_configured engine _).
  rewrite Hcmd. cbv beta iota.
  destruct (negb (rc =? 0)); [reflexivity|].
  destruct output as [|c s]; [reflexivity|].
  rewrite format_raw_line.
  cbn [String.length Nat.eqb String.eqb]. cbv beta iota.
  destruct (json_loads (String c s)) as [d|x]; [|reflexivity].
  cbv beta iota. rewrite format_native_line. reflexivity.
Qed.
End ReadJsonRuns.

Lemma read_json_run_witness :
  @ReadJson.main sample_python nat sample_nftables (@start nat sample_nftables)
  = (Done tt,
     World 1%nat (read_settings ++ [Cmd "list ruleset"])
           [raw_line "ruleset"; @native_line sample_python kernel_ruleset]).
Proof.
  apply (@read_json_run sample_python nat sample_nftables 0 "ruleset" "" 1%nat).
  reflexivity.
Defined.
